(** * Persistent chat memory of the RAG chatbot: model and properties

    A shallow embedding of [src/memory.py] (class [PersistentChatMemory]),
    of [load_chat_history] in [src/app.py] and of [RAGSystem.query] in
    [src/rag.py], together with the parts of Python, of the file system and
    of LangChain these functions rely on.

    Layout: Part I holds the definitions (Python values and built-ins, the
    file system, LangChain messages, the three source modules, a reference
    JSON codec used by the examples); Part II holds the lemmas and the
    theorems. *)

From Stdlib Require Import ZArith NArith List String Ascii Bool Lia DecimalString.
From stdpp Require Import base option list gmap strings.

Open Scope string_scope.
Open Scope list_scope.

(* ===================================================================== *)
(** * Part I: definitions *)
(* ===================================================================== *)

(** ** Python values *)

(** A Python [str] is a sequence of Unicode code points. *)
Abbreviation pystr := (list N).

(** A literal of the source, written as an ASCII string. *)
Definition py (s : string) : pystr :=
  List.map N_of_ascii (list_ascii_of_string s).

(** The contents of a file are bytes. *)
Abbreviation bytes := string.

(** The file system: regular files by path. *)
Abbreviation fs := (gmap string bytes).

(** The values [json.load] produces. A [dict] keeps its insertion order
    (it shows in [str(item)]); its keys are distinct in every value Python
    builds, and [dict_get] reads the first binding of a key. A float is
    carried as the text [repr] prints for it. *)
Unset Elimination Schemes.
Inductive pyval : Type :=
| PNone
| PBool (b : bool)
| PInt (z : Z)
| PFloat (shown : pystr)
| PStr (s : pystr)
| PList (l : list pyval)
| PDict (kvs : list (pystr * pyval)).
Set Elimination Schemes.

(** The exceptions that occur in the modelled code. All of them derive from
    [Exception], so [except Exception] catches each. *)
Inductive exn : Type :=
| AttributeError
| TypeError (msg : string)
| ValueError (msg : string)
| NameError (name : string)
| FileNotFoundError (path : string)
| JSONDecodeError
| UnicodeError
| LibraryError (detail : string)
| OSError (msg : string).

Inductive result (A : Type) : Type :=
| Ok (a : A)
| Raise (e : exn).
Arguments Ok {A} a.
Arguments Raise {A} e.

(** Sequencing: an exception ends the block. Written [x ← r; k]. *)
#[global] Instance result_ret : MRet result := fun A a => Ok a.
#[global] Instance result_bind : MBind result := fun A B k r =>
  match r with
  | Ok a => k a
  | Raise e => Raise e
  end.

(** [try: body  except Exception: handler]. *)
Definition try_except {A : Type} (body : result A) (handler : exn -> result A)
  : result A :=
  match body with
  | Ok a => Ok a
  | Raise e => handler e
  end.

(** ** Python built-ins on [str] *)

Module Py.

Definition str_eqb (s t : pystr) : bool := bool_decide (s = t).

(** [str.isspace] on one code point: the white space of [str.strip()]. *)
Definition isspace (c : N) : bool :=
  ((9 <=? c) && (c <=? 13) || (28 <=? c) && (c <=? 32)
   || (c =? 133) || (c =? 160) || (c =? 5760)
   || (8192 <=? c) && (c <=? 8202)
   || (c =? 8232) || (c =? 8233) || (c =? 8239) || (c =? 8287)
   || (c =? 12288))%N.

Fixpoint lstrip (s : pystr) : pystr :=
  match s with
  | c :: s' => if isspace c then lstrip s' else s
  | [] => []
  end.

Definition rstrip (s : pystr) : pystr := rev (lstrip (rev s)).

(** [s.strip()] *)
Definition strip (s : pystr) : pystr := rstrip (lstrip s).

(** [needle in hay] for two [str]. *)
Fixpoint startswith (hay needle : pystr) {struct needle} : bool :=
  match needle, hay with
  | [], _ => true
  | a :: needle', b :: hay' => (a =? b)%N && startswith hay' needle'
  | _ :: _, [] => false
  end.

Fixpoint contains (needle hay : pystr) : bool :=
  startswith hay needle
  || match hay with
     | [] => false
     | _ :: hay' => contains needle hay'
     end.

(** [sep.join(parts)] *)
Fixpoint join (sep : pystr) (parts : list pystr) : pystr :=
  match parts with
  | [] => []
  | [p] => p
  | p :: rest => p ++ sep ++ join sep rest
  end.

(** Truth value of an object in a condition. *)
Definition truthy (v : pyval) : bool :=
  match v with
  | PNone => false
  | PBool b => b
  | PInt z => negb (z =? 0)%Z
  | PFloat shown => negb (str_eqb shown (py "0.0") || str_eqb shown (py "-0.0"))
  | PStr s => negb (str_eqb s [])
  | PList l => match l with [] => false | _ => true end
  | PDict kvs => match kvs with [] => false | _ => true end
  end.

(** [d.get(key, default)] on the bindings of a [dict]. *)
Fixpoint dict_get (kvs : list (pystr * pyval)) (key : pystr) (default : pyval)
  : pyval :=
  match kvs with
  | [] => default
  | (k, v) :: rest => if str_eqb k key then v else dict_get rest key default
  end.

(** [obj.get(key, default)]: only a [dict] has the method. *)
Definition get (obj : pyval) (key : pystr) (default : pyval) : result pyval :=
  match obj with
  | PDict kvs => Ok (dict_get kvs key default)
  | _ => Raise AttributeError
  end.

(** [obj.strip()]: only a [str] has the method. *)
Definition strip_method (obj : pyval) : result pystr :=
  match obj with
  | PStr s => Ok (strip s)
  | _ => Raise AttributeError
  end.

(** [obj == "<s>"] for a [str] literal: no other JSON value equals a [str]. *)
Definition eq_str (obj : pyval) (s : pystr) : bool :=
  match obj with
  | PStr t => str_eqb t s
  | _ => false
  end.

(** [for x in obj]: a [list] yields its items, a [dict] its keys, a [str]
    its characters; the other JSON values are not iterable. *)
Definition iter (obj : pyval) : result (list pyval) :=
  match obj with
  | PList l => Ok l
  | PDict kvs => Ok (List.map (fun kv => PStr (fst kv)) kvs)
  | PStr s => Ok (List.map (fun c => PStr [c]) s)
  | _ => Raise (TypeError "object is not iterable")
  end.

(** *** [repr] and [str] *)

Definition hex_digit (d : N) : N :=
  nth (N.to_nat d) (py "0123456789abcdef") 48%N.

(** [width] lower-case hexadecimal digits of [c], most significant first. *)
Fixpoint hex (width : nat) (c : N) : pystr :=
  match width with
  | O => []
  | S w => hex w (c / 16) ++ [hex_digit (c mod 16)]
  end.

Definition backslash : N := 92.
Definition squote : N := 39.
Definition dquote : N := 34.

(** The quote [repr] encloses a [str] in: double quotes only when the text
    has a single quote and no double quote. *)
Definition repr_quote (s : pystr) : N :=
  if existsb (N.eqb squote) s && negb (existsb (N.eqb dquote) s)
  then dquote else squote.

Section Repr.
(** [str.isprintable] on a code point above ASCII (a table of the
    Unicode database). *)
Variable isprintable : N -> bool.

(** How [repr] shows one character of a [str] enclosed in [quote]. *)
Definition repr_char (quote c : N) : pystr :=
  if ((c =? quote) || (c =? backslash))%N then [backslash; c]
  else if (c =? 9)%N then py "\t"
  else if (c =? 10)%N then py "\n"
  else if (c =? 13)%N then py "\r"
  else if ((c <? 32) || (c =? 127))%N then py "\x" ++ hex 2 c
  else if (c <? 127)%N then [c]
  else if isprintable c then [c]
  else if (c <=? 255)%N then py "\x" ++ hex 2 c
  else if (c <=? 65535)%N then py "\u" ++ hex 4 c
  else py "\U" ++ hex 8 c.

Definition repr_body (quote : N) (s : pystr) : pystr :=
  concat (List.map (repr_char quote) s).

Definition repr_str (s : pystr) : pystr :=
  let q := repr_quote s in q :: repr_body q s ++ [q].

Definition repr_int (z : Z) : pystr :=
  py (DecimalString.NilZero.string_of_int (Z.to_int z)).

Fixpoint repr (v : pyval) : pystr :=
  match v with
  | PNone => py "None"
  | PBool true => py "True"
  | PBool false => py "False"
  | PInt z => repr_int z
  | PFloat shown => shown
  | PStr s => repr_str s
  | PList l => py "[" ++ join (py ", ") (List.map repr l) ++ py "]"
  | PDict kvs =>
      py "{"
      ++ join (py ", ")
           (List.map (fun kv => repr_str (fst kv) ++ py ": " ++ repr (snd kv)) kvs)
      ++ py "}"
  end.

(** [str(obj)] of a container is its [repr]; of a [str], the text. *)
Definition str (v : pyval) : pystr :=
  match v with
  | PStr s => s
  | _ => repr v
  end.
End Repr.

End Py.

(** ** The run-time environment

    What the modelled code takes from the Python installation and is not
    part of the repository: the Unicode table behind [repr], and the [json]
    module ([json.dump(data, f, indent=2, ensure_ascii=False)] on a file
    opened with [encoding="utf-8"], and [json.load] on such a file). Both
    [json] functions raise on some inputs. *)
Class Runtime : Type := {
  isprintable : N -> bool;
  json_dump : pyval -> result bytes;
  json_load : bytes -> result pyval
}.

(** ** The file system ([os], [open]) *)

Module Os.

(** [os.path.exists(p)] *)
Definition path_exists (d : fs) (p : string) : bool :=
  match d !! p with Some _ => true | None => false end.

(** [open(p, "r").read()] *)
Definition read (d : fs) (p : string) : result bytes :=
  match d !! p with
  | Some b => Ok b
  | None => Raise (FileNotFoundError p)
  end.

(** [open(p, "w")] creates the file or truncates it. *)
Definition open_w (d : fs) (p : string) : fs := <[p := ""]> d.

(** The file [p] once [text] has been written to it. *)
Definition write (d : fs) (p : string) (text : bytes) : fs := <[p := text]> d.

(** [os.remove(p)] *)
Definition remove (d : fs) (p : string) : result fs :=
  match d !! p with
  | Some _ => Ok (delete p d)
  | None => Raise (FileNotFoundError p)
  end.

(** [os.rename(src, dst)] between regular files, as POSIX does it: an
    existing [dst] is replaced. *)
Definition rename (d : fs) (src dst : string) : result fs :=
  match d !! src with
  | Some b => Ok (<[dst := b]> (delete src d))
  | None => Raise (FileNotFoundError src)
  end.

End Os.

(** ** LangChain messages and the buffer memory *)

Inductive BaseMessage : Type :=
| HumanMessage (content : pystr)
| AIMessage (content : pystr).

Definition content (m : BaseMessage) : pystr :=
  match m with
  | HumanMessage c => c
  | AIMessage c => c
  end.

(** [message.type] *)
Definition type (m : BaseMessage) : pystr :=
  match m with
  | HumanMessage _ => py "human"
  | AIMessage _ => py "ai"
  end.

(** [message_to_dict(m)] of [langchain_core.messages]: the type tag and,
    under [data], the dump of the message's fields (those of
    langchain-core 0.2 and 0.3), for a message built from its content
    alone. *)
Definition message_to_dict (m : BaseMessage) : pyval :=
  let common :=
    [ (py "content", PStr (content m));
      (py "additional_kwargs", PDict []);
      (py "response_metadata", PDict []);
      (py "type", PStr (type m));
      (py "name", PNone);
      (py "id", PNone);
      (py "example", PBool false) ] in
  let own :=
    match m with
    | HumanMessage _ => []
    | AIMessage _ =>
        [ (py "tool_calls", PList []);
          (py "invalid_tool_calls", PList []);
          (py "usage_metadata", PNone) ]
    end in
  PDict [ (py "type", PStr (type m)); (py "data", PDict (common ++ own)) ].

(** [ConversationBufferMemory]: [chat_memory.messages]. *)
Record ConversationBufferMemory : Type := {
  messages : list BaseMessage
}.

Module Memory.
(** [ConversationBufferMemory(...)] *)
Definition new : ConversationBufferMemory := {| messages := [] |}.

(** [memory.clear()] *)
Definition clear (m : ConversationBufferMemory) : ConversationBufferMemory :=
  {| messages := [] |}.

(** [memory.save_context(inputs, outputs)] with [input_key="input"] and
    [output_key="output"]: the two texts become a human and an AI
    message at the end of the history. *)
Definition save_context (m : ConversationBufferMemory)
    (input_str output_str : pystr) : ConversationBufferMemory :=
  {| messages := messages m ++ [HumanMessage input_str; AIMessage output_str] |}.
End Memory.

(** A loop [for x in l: body] over a state, stopping at the first
    exception. *)
Fixpoint for_each {A S : Type} (body : A -> S -> result S) (l : list A) (s : S)
  : result S :=
  match l with
  | [] => Ok s
  | x :: l' => s' ← body x s; for_each body l' s'
  end.

(** ** [src/memory.py]: class [PersistentChatMemory] *)

Module PersistentChatMemory.
Section Methods.
Context {rt : Runtime}.

(** [self.path]; it is set once, in [__init__]. *)
Variable path : string.

(** What a method works on: the file system and [self.memory]. *)
Definition state : Type := fs * ConversationBufferMemory.

(** The body of the loop of [_verify_and_load] (lines 52-66), on the
    list [validated_messages]. *)
Definition validate_item (item : pyval) (validated_messages : list BaseMessage)
  : result (list BaseMessage) :=
  match item with
  | PDict kvs =>
      let data := Py.dict_get kvs (py "data") (PDict []) in
      found ← Py.get data (py "content")
                (Py.dict_get kvs (py "content") (PStr []));
      content ← Py.strip_method found;
      let msg_type := Py.dict_get kvs (py "type") (PStr []) in
      if negb (Py.truthy (PStr content)) then Ok validated_messages
      else if Py.eq_str msg_type (py "human")
              || Py.contains (py "HumanMessage") (Py.str isprintable item)
      then Ok (validated_messages ++ [HumanMessage content])
      else if Py.eq_str msg_type (py "ai")
              || Py.contains (py "AIMessage") (Py.str isprintable item)
      then Ok (validated_messages ++ [AIMessage content])
      else Ok validated_messages
  | _ => Ok validated_messages
  end.

(** The [try] block of [_verify_and_load] (lines 45-71): the memory it
    leaves, or the exception it raises. *)
Definition load_messages (d : fs) (memory : ConversationBufferMemory)
  : result ConversationBufferMemory :=
  text ← Os.read d path;
  data ← json_load text;
  items ← match data with
          | PList l => Ok l
          | _ => Raise (ValueError "Formato inválido: debe ser lista")
          end;
  validated_messages ← for_each validate_item items [];
  match validated_messages with
  | [] => Ok memory
  | _ :: _ => Ok {| messages := validated_messages |}
  end.

(** [_backup_and_reset] (lines 106-116) *)
Definition _backup_and_reset (st : state) : result state :=
  let backup_path := path +:+ ".bak" in
  d ← try_except
        (if Os.path_exists st.1 path then Os.rename st.1 path backup_path
         else Ok st.1)
        (fun _ => Ok st.1);
  Ok (d, Memory.clear st.2).

(** [_verify_and_load] (lines 38-75) *)
Definition _verify_and_load (st : state) : result state :=
  if negb (Os.path_exists st.1 path) then Ok st
  else
    try_except
      (memory ← load_messages st.1 st.2; Ok (st.1, memory))
      (fun _ => _backup_and_reset st).

(** [PersistentChatMemory(path)]: a fresh buffer memory, then
    [_verify_and_load]; an exception is logged and raised again. *)
Definition __init__ (d : fs) : result state :=
  try_except (_verify_and_load (d, Memory.new)) (fun e => Raise e).

(** The record array [_atomic_save] serialises (lines 137-138). *)
Definition saved_records (memory : ConversationBufferMemory) : list pyval :=
  List.map message_to_dict
    (List.filter (fun m => Py.truthy (PStr (content m))) (messages memory)).

Definition temp_path : string := path +:+ ".tmp".

(** The file operations of the [try] block of [_atomic_save] once
    [json.dump] has produced [text] (lines 140-145), in order. *)
Definition save_steps (text : bytes) : list (fs -> result fs) :=
  [ (fun d => Ok (Os.open_w d temp_path));
    (fun d => Ok (Os.write d temp_path text));
    (fun d => if Os.path_exists d path then Os.remove d path else Ok d);
    (fun d => Os.rename d temp_path path) ].

(** Runs file operations in order; an exception leaves the file system
    as the operations before it made it. *)
Fixpoint run_steps (steps : list (fs -> result fs)) (d : fs) : fs * result unit :=
  match steps with
  | [] => (d, Ok tt)
  | step :: rest =>
      match step d with
      | Ok d' => run_steps rest d'
      | Raise e => (d, Raise e)
      end
  end.

(** The [except] block of [_atomic_save] (lines 147-154): the temporary
    file is removed and the exception raised again. *)
Definition save_failed (d : fs) (e : exn) : fs * result unit :=
  let d' :=
    if Os.path_exists d temp_path
    then match Os.remove d temp_path with Ok d' => d' | Raise _ => d end
    else d in
  (d', Raise e).

(** [_atomic_save] (lines 133-154) *)
Definition _atomic_save (st : state) : state * result unit :=
  let data := PList (saved_records st.2) in
  let '(d, outcome) :=
    match json_dump data with
    | Ok text =>
        match run_steps (save_steps text) st.1 with
        | (d, Ok _) => (d, Ok tt)
        | (d, Raise e) => save_failed d e
        end
    | Raise e => save_failed (Os.open_w st.1 temp_path) e
    end in
  ((d, st.2), outcome).

(** Where a run of [_atomic_save] can be cut short: after the first
    [k] file operations, or while [json.dump] is writing, with the
    first [n] bytes in the temporary file. *)
Inductive interruption : Type :=
| AfterStep (k : nat)
| WhileWriting (n : nat).

(** The file system an interrupted [_atomic_save] leaves behind. *)
Definition interrupted_save (text : bytes) (d : fs) (i : interruption) : fs :=
  match i with
  | AfterStep k => (run_steps (take k (save_steps text)) d).1
  | WhileWriting n => Os.write (Os.open_w d temp_path) temp_path (substring 0 n text)
  end.

(** [save_context] (lines 118-131), for the dictionaries of texts its
    caller passes. The state is returned also when it raises: the
    messages may already be in the memory. *)
Definition save_context (st : state) (input_data output_data : gmap pystr pystr)
  : state * result unit :=
  let invalid :=
    Raise (ValueError "Los datos deben contener 'input' y 'output' no vacíos") in
  match input_data !! py "input", output_data !! py "output" with
  | Some input_str, Some output_str =>
      if negb (Py.truthy (PStr input_str)) || negb (Py.truthy (PStr output_str))
      then (st, invalid)
      else _atomic_save (st.1, Memory.save_context st.2 input_str output_str)
  | _, _ => (st, invalid)
  end.

(** [clear] (lines 164-172) *)
Definition clear (st : state) : state :=
  let d := if Os.path_exists st.1 path
           then match Os.remove st.1 path with Ok d => d | Raise _ => st.1 end
           else st.1 in
  (d, Memory.clear st.2).

(** The body of the loop of [_validate_messages] (lines 81-101), on the
    list [validated]. Creating a message from a text raises nothing, so
    the inner [try] never catches. *)
Definition validate_raw (item : pyval) (validated : list BaseMessage)
  : result (list BaseMessage) :=
  match item with
  | PDict kvs =>
      let msg_type := Py.dict_get kvs (py "type") PNone in
      content ← Py.strip_method (Py.dict_get kvs (py "content") (PStr []));
      if negb (Py.truthy (PStr content)) then Ok validated
      else if Py.eq_str msg_type (py "human")
      then Ok (validated ++ [HumanMessage content])
      else if Py.eq_str msg_type (py "ai")
      then Ok (validated ++ [AIMessage content])
      else Ok validated
  | _ => Ok validated
  end.

(** [_validate_messages] (lines 77-103) *)
Definition _validate_messages (raw_messages : list pyval) : result (list BaseMessage) :=
  for_each validate_raw raw_messages [].

(** [load_memory_variables] (lines 156-162): the value under
    ["chat_history"]. The buffer memory returns its messages
    ([return_messages=True]); were it to raise, the history would be
    empty. *)
Definition load_memory_variables (memory : ConversationBufferMemory)
  : list BaseMessage :=
  match try_except (Ok (messages memory)) (fun _ => Ok []) with
  | Ok history => history
  | Raise _ => []
  end.

End Methods.
End PersistentChatMemory.

(** ** [src/app.py]: [load_chat_history] *)

Module App.

(** An entry of [st.session_state.messages]: [{"role": ..., "content": ...}].
    The content read from the file is whatever JSON value the record
    holds. *)
Record ui_message : Type := {
  role : string;
  ui_content : pyval
}.

Section History.
Context {rt : Runtime}.

(** What the name [HumanMessage] is bound to among the globals of
    [app.py] when line 82 runs: a class test, or nothing. *)
Variable HumanMessage_global : option (BaseMessage -> bool).

(** [isinstance(msg, HumanMessage)] at line 82. *)
Definition isinstance_HumanMessage (msg : BaseMessage) : result bool :=
  match HumanMessage_global with
  | Some test => Ok (test msg)
  | None => Raise (NameError "HumanMessage")
  end.

(** The body of the first loop (lines 68-75), on
    [st.session_state.messages]. *)
Definition import_record (msg : pyval) (shown : list ui_message)
  : result (list ui_message) :=
  match msg with
  | PDict kvs =>
      let data := Py.dict_get kvs (py "data") (PDict []) in
      content ← Py.get data (py "content")
                  (Py.dict_get kvs (py "content") (PStr []));
      let role :=
        if Py.eq_str (Py.dict_get kvs (py "type") PNone) (py "human")
        then "user" else "assistant" in
      if Py.truthy content && negb (String.eqb role "")
      then Ok (shown ++ [{| role := role; ui_content := content |}])
      else Ok shown
  | _ => Ok shown
  end.

(** A loop over the display list that keeps what was appended before
    an exception. *)
Fixpoint import_all (items : list pyval) (shown : list ui_message)
  : list ui_message * result unit :=
  match items with
  | [] => (shown, Ok tt)
  | msg :: rest =>
      match import_record msg shown with
      | Ok shown' => import_all rest shown'
      | Raise e => (shown, Raise e)
      end
  end.

(** Lines 63-75: the store file read directly. *)
Definition import_file (d : fs) (store : string) (shown : list ui_message)
  : list ui_message * result unit :=
  if Os.path_exists d store then
    match (text ← Os.read d store; data ← json_load text; Py.iter data) with
    | Ok items => import_all items shown
    | Raise e => (shown, Raise e)
    end
  else (shown, Ok tt).

(** The body of the second loop (lines 80-86); its own [try] swallows
    every exception. *)
Definition import_message (msg : BaseMessage) (shown : list ui_message)
  : list ui_message :=
  let attempt :=
    let content := content msg in
    is_human ← isinstance_HumanMessage msg;
    let role := if is_human : bool then "user" else "assistant" in
    if Py.truthy (PStr content)
       && negb (existsb (fun m => Py.eq_str (ui_content m) content) shown)
    then Ok (shown ++ [{| role := role; ui_content := PStr content |}])
    else Ok shown in
  match attempt with
  | Ok shown' => shown'
  | Raise _ => shown
  end.

(** [load_chat_history] (lines 59-89), from the display list [shown]
    ([initialize_session_state] passes the empty one). The outer
    [try] ends the function at the first exception of the first part. *)
Definition load_chat_history_from (d : fs) (store : string)
    (memory : ConversationBufferMemory) (shown : list ui_message)
  : list ui_message :=
  match import_file d store shown with
  | (shown', Ok _) => fold_left (fun acc msg => import_message msg acc) (messages memory) shown'
  | (shown', Raise _) => shown'
  end.

End History.

(** [app.py] imports neither [HumanMessage] nor anything that binds it. *)
Definition app_globals_HumanMessage : option (BaseMessage -> bool) := None.

(** [load_chat_history()] as [initialize_session_state] calls it. *)
Definition load_chat_history {rt : Runtime} (d : fs) (store : string)
    (memory : ConversationBufferMemory) : list ui_message :=
  load_chat_history_from app_globals_HumanMessage d store memory [].

End App.

(** ** [src/rag.py]: class [RAGSystem] *)

Module RAGSystem.
Section Rag.
(** The vector index object ([Chroma]) and the documents it returns
    belong to the libraries. *)
Variables (Chroma Document : Type).

(** [bool(index)], as the library's class defines it. *)
Variable chroma_bool : Chroma -> bool.

(** [index.similarity_search(question, k=k)]: the hits, or the
    library's own failure. *)
Variable similarity_search : Chroma -> pystr -> nat -> list Document + string.

(** Loading and splitting [file_path], then [Chroma.from_documents]:
    the index and the number of chunks, or a failure. *)
Variable build_index : string -> Chroma * nat + string.

(** [self.vector_db] *)
Record t : Type := { vector_db : option Chroma }.

(** [RAGSystem()]: [self.vector_db = None]. *)
Definition __init__ : t := {| vector_db := None |}.

Definition not_indexed : exn :=
  ValueError "Primero debes cargar un documento PDF.".

(** [process_pdf] (lines 45-64) *)
Definition process_pdf (self : t) (file_path : string) : t * result nat :=
  match build_index file_path with
  | inl (db, chunks) => ({| vector_db := Some db |}, Ok chunks)
  | inr detail => (self, Raise (LibraryError detail))
  end.

(** [query] (lines 66-70) *)
Definition query (self : t) (question : pystr) (k : nat) : result (list Document) :=
  let indexed :=
    match vector_db self with
    | None => false
    | Some db => chroma_bool db
    end in
  if negb indexed then Raise not_indexed
  else
    match vector_db self with
    | Some db =>
        match similarity_search db question k with
        | inl docs => Ok docs
        | inr detail => Raise (LibraryError detail)
        end
    | None => Raise AttributeError
    end.
End Rag.
End RAGSystem.

(** ** [src/app.py]: the session

    [initialize_session_state], [backup_message_to_json], the button of
    [setup_sidebar] and the handling of a question in [main]. *)

Module Session.

(** [backup_path] of [backup_message_to_json] *)
Definition backup_file : string := "chat_backup.json".

(** An entry of the backup file (lines 103-112). *)
Definition backup_entry (t text timestamp : pystr) : pyval :=
  PDict [ (py "type", PStr t); (py "content", PStr text);
          (py "timestamp", PStr timestamp) ].

Section Handlers.
Context {rt : Runtime}.

(** The vector index and its documents, as in [RAGSystem]. *)
Variables (Chroma Document : Type).
Variable chroma_bool : Chroma -> bool.
Variable similarity_search : Chroma -> pystr -> nat -> list Document + string.

(** [json.dump(messages, f, indent=2)] on a file opened with
    [encoding="utf-8"]: the output is ASCII, and a value made of what
    [json.load] returned and of texts is always written. *)
Variable json_dump_ascii : pyval -> bytes.

(** The set-up [RAGSystem()] does with the libraries (client, embeddings,
    splitter); it may fail. *)
Variable rag_startup : result unit.

(** Lines 178-193: the model, the prompt and [chain.invoke] on the
    question, the documents found and the history; the answer, or the
    failure of the service. *)
Variable complete : pystr -> list Document -> list BaseMessage -> result pystr.

(** [st.markdown(text)] inside a chat message (lines 172 and 197): the
    text is sent to the page, or the library raises, as it does on a text
    it cannot encode. *)
Variable markdown : pystr -> result unit.

(** The store file: [os.path.abspath("chat_memory.json")], which
    [load_chat_history] opens as ["chat_memory.json"]. *)
Variable path : string.

(** The keys of [st.session_state] the application sets. *)
Record session_state : Type := {
  ss_rag : option (RAGSystem.t Chroma);
  ss_memory : option ConversationBufferMemory;
  ss_messages : option (list App.ui_message)
}.

(** A session before its first run. *)
Definition new_session : session_state :=
  {| ss_rag := None; ss_memory := None; ss_messages := None |}.

(** Step 1 of [initialize_session_state] (lines 39-41). *)
Definition init_rag (ss : session_state) : result session_state :=
  match ss_rag ss with
  | Some _ => Ok ss
  | None =>
      _ ← rag_startup;
      Ok {| ss_rag := Some (RAGSystem.__init__ Chroma);
            ss_memory := ss_memory ss; ss_messages := ss_messages ss |}
  end.

(** Step 2 (lines 44-48). *)
Definition init_memory (d : fs) (ss : session_state) : result (fs * session_state) :=
  match ss_memory ss with
  | Some _ => Ok (d, ss)
  | None =>
      st ← PersistentChatMemory.__init__ path d;
      Ok (st.1, {| ss_rag := ss_rag ss; ss_memory := Some st.2;
                   ss_messages := ss_messages ss |})
  end.

(** Step 3 (lines 51-53). Without a memory in the session, line 78 of
    [load_chat_history] raises inside its [try], after the file was
    read. *)
Definition init_messages (d : fs) (ss : session_state) : session_state :=
  match ss_messages ss with
  | Some _ => ss
  | None =>
      {| ss_rag := ss_rag ss; ss_memory := ss_memory ss;
         ss_messages :=
           Some (match ss_memory ss with
                 | Some memory => App.load_chat_history d path memory
                 | None => (App.import_file d path []).1
                 end) |}
  end.

(** [initialize_session_state] (lines 35-57): one [try] around the three
    steps; what a step has set stays set when a later one raises. *)
Definition initialize_session_state (d : fs) (ss : session_state)
  : fs * session_state :=
  match init_rag ss with
  | Raise _ => (d, ss)
  | Ok ss1 =>
      match init_memory d ss1 with
      | Raise _ => (d, ss1)
      | Ok (d2, ss2) => (d2, init_messages d2 ss2)
      end
  end.

(** [backup_message_to_json] (lines 91-119); the two timestamps are what
    [str(datetime.now())] gives at lines 106 and 111. Every exception
    ends the function without a write: a file that is no JSON, or a JSON
    value without [append]. *)
Definition backup_message_to_json (d : fs)
    (user_input assistant_output now_user now_ai : pystr) : fs :=
  let loaded :=
    if Os.path_exists d backup_file
    then text ← Os.read d backup_file; json_load text
    else Ok (PList []) in
  match loaded with
  | Ok (PList messages) =>
      let messages' :=
        messages ++ [ backup_entry (py "human") user_input now_user;
                      backup_entry (py "ai") assistant_output now_ai ] in
      Os.write (Os.open_w d backup_file) backup_file (json_dump_ascii (PList messages'))
  | Ok _ => d
  | Raise _ => d
  end.

(** A session that has run [initialize_session_state] to its end. *)
Record session : Type := {
  rag : RAGSystem.t Chroma;
  memory : ConversationBufferMemory;
  shown : list App.ui_message
}.

(** The button of [setup_sidebar] (lines 129-133). *)
Definition clear_memory_button (d : fs) (s : session) : fs * session :=
  let st := PersistentChatMemory.clear path (d, memory s) in
  (st.1, {| rag := rag s; memory := st.2; shown := [] |}).

(** What lines 200-207 do once the answer is on the page: the display
    list, the memory and its file, the backup. An exception of
    [save_context] ends the [try] after the two appends. *)
Definition record_turn (d : fs) (s : session) (prompt response now_user now_ai : pystr)
  : fs * session :=
  let shown' :=
    shown s ++ [ {| App.role := "user"; App.ui_content := PStr prompt |};
                 {| App.role := "assistant"; App.ui_content := PStr response |} ] in
  match PersistentChatMemory.save_context path (d, memory s)
          {[ py "input" := prompt ]} {[ py "output" := response ]} with
  | (st, Ok _) =>
      (backup_message_to_json st.1 prompt response now_user now_ai,
       {| rag := rag s; memory := st.2; shown := shown' |})
  | (st, Raise _) =>
      (st.1, {| rag := rag s; memory := st.2; shown := shown' |})
  end.

(** The handling of a question in [main] (lines 168-211): the question on
    the page, retrieval, the answer, the answer on the page, then the
    display list, the memory and the backup. The [except] shows an error
    and keeps what was done before the exception. *)
Definition handle_prompt (d : fs) (s : session) (prompt now_user now_ai : pystr)
  : fs * session :=
  if negb (Py.truthy (PStr prompt)) then (d, s)
  else
    let attempt :=
      _ ← markdown prompt;
      docs ← RAGSystem.query Chroma Document chroma_bool similarity_search (rag s) prompt 3;
      response ← complete prompt docs
                   (PersistentChatMemory.load_memory_variables (memory s));
      _ ← markdown response;
      Ok response in
    match attempt with
    | Raise _ => (d, s)
    | Ok response => record_turn d s prompt response now_user now_ai
    end.

End Handlers.
End Session.

(** ** A reference run-time environment

    An executable stand-in for the [json] module and the Unicode table, so
    that the statements of Part II can be run on concrete files. It reads
    and writes JSON texts in UTF-8 the way [json.load] and
    [json.dump(..., indent=2, ensure_ascii=False)] do, with two
    simplifications: a number with a fraction or an exponent is carried
    with the text it has in the file, and the constants [NaN] and
    [Infinity] are not read. *)

Module Reference.

(** *** UTF-8 *)

Definition utf8_encode_char (c : N) : option (list N) :=
  (if c <? 128 then Some [c]
   else if c <? 2048 then Some [192 + c / 64; 128 + c mod 64]
   else if c <? 65536 then
     if (55296 <=? c) && (c <=? 57343) then None
     else Some [224 + c / 4096; 128 + (c / 64) mod 64; 128 + c mod 64]
   else if c <? 1114112 then
     Some [240 + c / 262144; 128 + (c / 4096) mod 64;
           128 + (c / 64) mod 64; 128 + c mod 64]
   else None)%N.

Fixpoint utf8_encode (s : pystr) : option (list N) :=
  match s with
  | [] => Some []
  | c :: s' =>
      match utf8_encode_char c, utf8_encode s' with
      | Some b, Some bs => Some (b ++ bs)
      | _, _ => None
      end
  end.

Definition is_cont (b : N) : bool := ((128 <=? b) && (b <? 192))%N.

Fixpoint utf8_decode (fuel : nat) (b : list N) : option pystr :=
  match fuel, b with
  | _, [] => Some []
  | O, _ :: _ => None
  | S fuel', b0 :: rest =>
      (if b0 <? 128 then cons b0 <$> utf8_decode fuel' rest
       else if (194 <=? b0) && (b0 <? 224) then
         match rest with
         | b1 :: rest' =>
             if is_cont b1
             then cons ((b0 - 192) * 64 + (b1 - 128)) <$> utf8_decode fuel' rest'
             else None
         | _ => None
         end
       else if (224 <=? b0) && (b0 <? 240) then
         match rest with
         | b1 :: b2 :: rest' =>
             let c := (b0 - 224) * 4096 + (b1 - 128) * 64 + (b2 - 128) in
             if is_cont b1 && is_cont b2 && (2048 <=? c)
                && negb ((55296 <=? c) && (c <=? 57343))
             then cons c <$> utf8_decode fuel' rest'
             else None
         | _ => None
         end
       else if (240 <=? b0) && (b0 <? 245) then
         match rest with
         | b1 :: b2 :: b3 :: rest' =>
             let c := (b0 - 240) * 262144 + (b1 - 128) * 4096
                      + (b2 - 128) * 64 + (b3 - 128) in
             if is_cont b1 && is_cont b2 && is_cont b3
                && (65536 <=? c) && (c <? 1114112)
             then cons c <$> utf8_decode fuel' rest'
             else None
         | _ => None
         end
       else None)%N
  end.

Definition bytes_of (l : list N) : bytes :=
  string_of_list_ascii (List.map ascii_of_N l).

Definition codes_of (b : bytes) : list N :=
  List.map N_of_ascii (list_ascii_of_string b).

(** *** Writing *)

Definition dump_char (c : N) : pystr :=
  (if c =? 34 then py "\" ++ [34]
   else if c =? 92 then py "\\"
   else if c =? 10 then py "\n"
   else if c =? 13 then py "\r"
   else if c =? 9 then py "\t"
   else if c =? 8 then py "\b"
   else if c =? 12 then py "\f"
   else if c <? 32 then py "\u" ++ Py.hex 4 c
   else [c])%N.

Definition dump_str (s : pystr) : pystr :=
  34%N :: concat (List.map dump_char s) ++ [34%N].

Definition newline (indent : nat) : pystr := 10%N :: repeat 32%N indent.

Fixpoint dump (indent : nat) (v : pyval) : pystr :=
  match v with
  | PNone => py "null"
  | PBool true => py "true"
  | PBool false => py "false"
  | PInt z => Py.repr_int z
  | PFloat shown => shown
  | PStr s => dump_str s
  | PList [] => py "[]"
  | PList l =>
      py "[" ++ newline (indent + 2)
      ++ Py.join (py "," ++ newline (indent + 2)) (List.map (dump (indent + 2)) l)
      ++ newline indent ++ py "]"
  | PDict [] => py "{}"
  | PDict kvs =>
      py "{" ++ newline (indent + 2)
      ++ Py.join (py "," ++ newline (indent + 2))
           (List.map (fun kv => dump_str (fst kv) ++ py ": " ++ dump (indent + 2) (snd kv)) kvs)
      ++ newline indent ++ py "}"
  end.

Definition json_dump (v : pyval) : result bytes :=
  match utf8_encode (dump 0 v) with
  | Some b => Ok (bytes_of b)
  | None => Raise UnicodeError
  end.

(** [json.dump(v, f, indent=2)]: every character outside the printable
    ASCII range is written as an escape. *)
Definition dump_char_ascii (c : N) : pystr :=
  (if (c <? 32) || (126 <? c) then
     if (c =? 10) || (c =? 13) || (c =? 9) || (c =? 8) || (c =? 12) then dump_char c
     else if c <? 65536 then py "\u" ++ Py.hex 4 c
     else py "\u" ++ Py.hex 4 (55296 + (c - 65536) / 1024)
          ++ py "\u" ++ Py.hex 4 (56320 + (c - 65536) mod 1024)
   else dump_char c)%N.

Definition dump_str_ascii (s : pystr) : pystr :=
  34%N :: concat (List.map dump_char_ascii s) ++ [34%N].

Fixpoint dump_ascii (indent : nat) (v : pyval) : pystr :=
  match v with
  | PNone => py "null"
  | PBool true => py "true"
  | PBool false => py "false"
  | PInt z => Py.repr_int z
  | PFloat shown => shown
  | PStr s => dump_str_ascii s
  | PList [] => py "[]"
  | PList l =>
      py "[" ++ newline (indent + 2)
      ++ Py.join (py "," ++ newline (indent + 2)) (List.map (dump_ascii (indent + 2)) l)
      ++ newline indent ++ py "]"
  | PDict [] => py "{}"
  | PDict kvs =>
      py "{" ++ newline (indent + 2)
      ++ Py.join (py "," ++ newline (indent + 2))
           (List.map (fun kv => dump_str_ascii (fst kv) ++ py ": "
                                ++ dump_ascii (indent + 2) (snd kv)) kvs)
      ++ newline indent ++ py "}"
  end.

Definition json_dump_ascii (v : pyval) : bytes := bytes_of (dump_ascii 0 v).

(** *** Reading *)

Definition is_ws (c : N) : bool :=
  ((c =? 32) || (c =? 9) || (c =? 10) || (c =? 13))%N.

Fixpoint skip_ws (s : pystr) : pystr :=
  match s with
  | c :: s' => if is_ws c then skip_ws s' else s
  | [] => []
  end.

Definition is_digit (c : N) : bool := ((48 <=? c) && (c <=? 57))%N.

Definition hex_value (c : N) : option N :=
  (if is_digit c then Some (c - 48)
   else if (97 <=? c) && (c <=? 102) then Some (c - 87)
   else if (65 <=? c) && (c <=? 70) then Some (c - 55)
   else None)%N.

Definition hex4 (a b c d : N) : option N :=
  match hex_value a, hex_value b, hex_value c, hex_value d with
  | Some x, Some y, Some z, Some w => Some (((x * 16 + y) * 16 + z) * 16 + w)%N
  | _, _, _, _ => None
  end.

(** The text of a string literal after its opening quote. *)
Fixpoint parse_string (s acc : pystr) : option (pystr * pystr) :=
  match s with
  | [] => None
  | c :: rest =>
      (if c =? 34 then Some (rev acc, rest)
       else if c =? 92 then
         match rest with
         | e :: rest' =>
             if e =? 117 then
               match rest' with
               | h1 :: h2 :: h3 :: h4 :: rest'' =>
                   match hex4 h1 h2 h3 h4 with
                   | Some hi =>
                       match rest'' with
                       | b :: u :: l1 :: l2 :: l3 :: l4 :: rest3 =>
                           match hex4 l1 l2 l3 l4 with
                           | Some lo =>
                               if (b =? 92) && (u =? 117)
                                  && (55296 <=? hi) && (hi <? 56320)
                                  && (56320 <=? lo) && (lo <? 57344)
                               then parse_string rest3
                                      (65536 + (hi - 55296) * 1024 + (lo - 56320) :: acc)
                               else parse_string rest'' (hi :: acc)
                           | None => parse_string rest'' (hi :: acc)
                           end
                       | _ => parse_string rest'' (hi :: acc)
                       end
                   | None => None
                   end
               | _ => None
               end
             else if (e =? 34) || (e =? 92) || (e =? 47) then parse_string rest' (e :: acc)
             else if e =? 98 then parse_string rest' (8 :: acc)
             else if e =? 102 then parse_string rest' (12 :: acc)
             else if e =? 110 then parse_string rest' (10 :: acc)
             else if e =? 114 then parse_string rest' (13 :: acc)
             else if e =? 116 then parse_string rest' (9 :: acc)
             else None
         | [] => None
         end
       else if c <? 32 then None
       else parse_string rest (c :: acc))%N
  end.

Fixpoint take_digits (s acc : pystr) : pystr * pystr :=
  match s with
  | c :: s' => if is_digit c then take_digits s' (c :: acc) else (rev acc, s)
  | [] => (rev acc, [])
  end.

Definition digits_value (ds : pystr) : Z :=
  fold_left (fun z c => (z * 10 + Z.of_N (c - 48))%Z) ds 0%Z.

(** A number literal: [-? int frac? exp?]. *)
Definition parse_number (s : pystr) : option (pyval * pystr) :=
  let '(sign, s1) :=
    match s with
    | c :: s' => if (c =? 45)%N then ([45%N], s') else ([], s)
    | [] => ([], s)
    end in
  let '(int, s2) := take_digits s1 [] in
  match int with
  | [] => None
  | d :: more =>
      if (d =? 48)%N && negb (Py.str_eqb more []) then None
      else
        let '(frac, s3) :=
          match s2 with
          | c :: s' =>
              if (c =? 46)%N then
                let '(ds, r) := take_digits s' [] in
                match ds with [] => (None, s2) | _ => (Some (c :: ds), r) end
              else (Some [], s2)
          | [] => (Some [], s2)
          end in
        match frac with
        | None => None
        | Some frac =>
            let '(exp, s4) :=
              match s3 with
              | c :: s' =>
                  if ((c =? 101) || (c =? 69))%N then
                    let '(sg, s'') :=
                      match s' with
                      | g :: t => if ((g =? 43) || (g =? 45))%N then ([g], t) else ([], s')
                      | [] => ([], s')
                      end in
                    let '(ds, r) := take_digits s'' [] in
                    match ds with [] => ([], s3) | _ => (c :: sg ++ ds, r) end
                  else ([], s3)
              | [] => ([], s3)
              end in
            match frac, exp with
            | [], [] =>
                let z := digits_value int in
                Some (PInt (match sign with [] => z | _ => - z end)%Z, s4)
            | _, _ => Some (PFloat (sign ++ int ++ frac ++ exp), s4)
            end
        end
  end.

Fixpoint expect (word s : pystr) : option pystr :=
  match word, s with
  | [], _ => Some s
  | a :: word', b :: s' => if (a =? b)%N then expect word' s' else None
  | _ :: _, [] => None
  end.

(** [d[k] = v]: a key keeps the place of its first binding. *)
Fixpoint dict_set (kvs : list (pystr * pyval)) (k : pystr) (v : pyval)
  : list (pystr * pyval) :=
  match kvs with
  | [] => [(k, v)]
  | (k', v') :: rest =>
      if Py.str_eqb k' k then (k', v) :: rest else (k', v') :: dict_set rest k v
  end.

Fixpoint parse_value (fuel : nat) (s : pystr) : option (pyval * pystr) :=
  match fuel with
  | O => None
  | S fuel' =>
      match skip_ws s with
      | [] => None
      | c :: rest =>
          (if c =? 110 then pair PNone <$> expect (py "ull") rest
           else if c =? 116 then pair (PBool true) <$> expect (py "rue") rest
           else if c =? 102 then pair (PBool false) <$> expect (py "alse") rest
           else if c =? 34 then
             match parse_string rest [] with
             | Some (text, rest') => Some (PStr text, rest')
             | None => None
             end
           else if c =? 91 then
             match skip_ws rest with
             | c' :: rest' =>
                 if c' =? 93 then Some (PList [], rest')
                 else parse_elements fuel' rest []
             | [] => None
             end
           else if c =? 123 then
             match skip_ws rest with
             | c' :: rest' =>
                 if c' =? 125 then Some (PDict [], rest')
                 else parse_members fuel' rest []
             | [] => None
             end
           else parse_number (c :: rest))%N
      end
  end
with parse_elements (fuel : nat) (s : pystr) (acc : list pyval)
  : option (pyval * pystr) :=
  match fuel with
  | O => None
  | S fuel' =>
      match parse_value fuel' s with
      | Some (v, rest) =>
          match skip_ws rest with
          | c :: rest' =>
              (if c =? 44 then parse_elements fuel' rest' (v :: acc)
               else if c =? 93 then Some (PList (rev (v :: acc)), rest')
               else None)%N
          | [] => None
          end
      | None => None
      end
  end
with parse_members (fuel : nat) (s : pystr) (acc : list (pystr * pyval))
  : option (pyval * pystr) :=
  match fuel with
  | O => None
  | S fuel' =>
      match skip_ws s with
      | q :: s1 =>
          if (q =? 34)%N then
            match parse_string s1 [] with
            | Some (key, s2) =>
                match skip_ws s2 with
                | colon :: s3 =>
                    if (colon =? 58)%N then
                      match parse_value fuel' s3 with
                      | Some (v, rest) =>
                          match skip_ws rest with
                          | c :: rest' =>
                              (if c =? 44 then parse_members fuel' rest' (dict_set acc key v)
                               else if c =? 125 then Some (PDict (dict_set acc key v), rest')
                               else None)%N
                          | [] => None
                          end
                      | None => None
                      end
                    else None
                | [] => None
                end
            | None => None
            end
          else None
      | [] => None
      end
  end.

Definition json_load (b : bytes) : result pyval :=
  let raw := codes_of b in
  match utf8_decode (length raw) raw with
  | None => Raise UnicodeError
  | Some text =>
      match parse_value (2 * length text + 2) text with
      | Some (v, rest) =>
          match skip_ws rest with
          | [] => Ok v
          | _ :: _ => Raise JSONDecodeError
          end
      | None => Raise JSONDecodeError
      end
  end.

(** Above ASCII, the reference table takes the controls U+0080-U+009F and
    the white space for not printable and every other code point for
    printable. *)
Definition isprintable (c : N) : bool :=
  ((160 <=? c)%N && negb (Py.isspace c)).

Definition runtime : Runtime := Build_Runtime isprintable json_dump json_load.

End Reference.

(** ** Notions used in the statements *)

(** [s] is empty or has white space only. *)
Definition blank (s : pystr) : bool := forallb Py.isspace s.

(** [s] has no white space at its ends. *)
Definition trimmed (s : pystr) : bool := Py.str_eqb (Py.strip s) s.

(** [c] does not occur in [s]. *)
Definition avoids (c : N) (s : pystr) : bool := forallb (fun a => negb (a =? c)%N) s.

(** The characters [repr] writes after the backslash of an escape. *)
Definition escape_alphabet (x : N) : bool :=
  existsb (N.eqb x) (py "'\tnrxuU0123456789abcdef" ++ [Py.dquote]).

(** The ASCII characters [repr] shows as themselves. *)
Definition is_plain (a : N) : bool :=
  ((32 <=? a) && (a <? 127) && negb (a =? Py.squote) && negb (a =? Py.dquote)
   && negb (a =? Py.backslash))%N.

(** A needle [repr] cannot hide or fake: plain characters, the first of
    them outside the escape alphabet. *)
Definition searchable (needle : pystr) : bool :=
  match needle with
  | first :: _ => negb (escape_alphabet first) && forallb is_plain needle
  | [] => false
  end.

(** *** Persisted records, as the specification describes them *)

(** The text a record holds: the one under [data.content], else the one
    under [content], else the empty text. [None] when [data] is no
    object or the content is no text. *)
Definition record_content (kvs : list (pystr * pyval)) : option pystr :=
  match Py.dict_get kvs (py "data") (PDict []) with
  | PDict fields =>
      match Py.dict_get fields (py "content") (Py.dict_get kvs (py "content") (PStr [])) with
      | PStr c => Some c
      | _ => None
      end
  | _ => None
  end.

Definition record_type (kvs : list (pystr * pyval)) : pyval :=
  Py.dict_get kvs (py "type") (PStr []).

(** The nested shape [{"type": t, "data": {"content": c}}]. *)
Definition nested_record (t c : pystr) : pyval :=
  PDict [ (py "type", PStr t); (py "data", PDict [ (py "content", PStr c) ]) ].

(** The legacy flat shape [{"type": t, "content": c}]. *)
Definition flat_record (t c : pystr) : pyval :=
  PDict [ (py "type", PStr t); (py "content", PStr c) ].

(** The message the specification assigns to a type tag and a text:
    [human] is the user, [ai] the assistant. *)
Definition tagged_message (t : pyval) (c : pystr) : list BaseMessage :=
  if Py.eq_str t (py "human") then [HumanMessage c]
  else if Py.eq_str t (py "ai") then [AIMessage c]
  else [].

(** The entries the record-filtering property lists: a human or ai record
    in either shape, a record with empty content, an entry that is no
    object. *)
Definition listed_entry (item : pyval) : bool :=
  match item with
  | PDict kvs =>
      match record_content kvs with
      | Some c =>
          Py.eq_str (record_type kvs) (py "human")
          || Py.eq_str (record_type kvs) (py "ai")
          || Py.str_eqb c []
      | None => false
      end
  | _ => true
  end.

(** What the property expects of one entry: the message of a record with
    content, nothing otherwise. *)
Definition expected_messages (item : pyval) : list BaseMessage :=
  match item with
  | PDict kvs =>
      match record_content kvs with
      | Some c => if Py.str_eqb c [] then [] else tagged_message (record_type kvs) c
      | None => []
      end
  | _ => []
  end.

(** The same with the content stripped, and nothing for a content that
    strips to the empty text. *)
Definition stripped_messages (item : pyval) : list BaseMessage :=
  match item with
  | PDict kvs =>
      match record_content kvs with
      | Some c =>
          if Py.str_eqb (Py.strip c) [] then []
          else tagged_message (record_type kvs) (Py.strip c)
      | None => []
      end
  | _ => []
  end.

(** The content of a record has no white space at its ends. *)
Definition trimmed_entry (item : pyval) : bool :=
  match item with
  | PDict kvs =>
      match record_content kvs with
      | Some c => trimmed c
      | None => true
      end
  | _ => true
  end.

(** The rendering of the record does not overrule its tag: the record is
    tagged [human], or [str(item)] holds no ["HumanMessage"]. *)
Definition tag_decides {rt : Runtime} (item : pyval) : bool :=
  match item with
  | PDict kvs =>
      Py.eq_str (record_type kvs) (py "human")
      || negb (Py.contains (py "HumanMessage") (Py.str isprintable item))
  | _ => true
  end.

(** A valid message of the data model: its content is neither empty nor
    white space only. *)
Definition valid_message (m : BaseMessage) : bool := negb (blank (content m)).

(** A message the store file gives back as it is: trimmed, not empty, and
    when it is the assistant's, without the text ["HumanMessage"]. *)
Definition stable_message (m : BaseMessage) : bool :=
  trimmed (content m) && negb (Py.str_eqb (content m) [])
  && match m with
     | HumanMessage _ => true
     | AIMessage c => negb (Py.contains (py "HumanMessage") c)
     end.

(** The content field of a written record. *)
Definition written_content (record : pyval) : option pystr :=
  match record with
  | PDict kvs => record_content kvs
  | _ => None
  end.

(** Two entries of the display list are byte-identical in content and
    role. *)
Definition same_entry (a b : App.ui_message) : Prop :=
  App.role a = App.role b /\ App.ui_content a = App.ui_content b.

(** In [base ++ extra], every entry of [extra] is a non-empty text of
    [source] that no entry before it has as its content. *)
Definition added_fresh (source : list BaseMessage) (base extra : list App.ui_message)
  : Prop :=
  forall before m after, extra = before ++ m :: after ->
    exists c, App.ui_content m = PStr c
              /\ c <> []
              /\ In c (List.map content source)
              /\ Forall (fun m' => App.ui_content m' <> PStr c) (base ++ before).

(** *** The loop of [_verify_and_load], record by record *)

(** The record can be read: it is no object, or its [data] is an object
    and its content a text. *)
Definition readable (item : pyval) : bool :=
  match item with
  | PDict kvs => match record_content kvs with Some _ => true | None => false end
  | _ => true
  end.

(** The messages a readable record adds to [validated_messages]. *)
Definition loaded_messages {rt : Runtime} (item : pyval) : list BaseMessage :=
  match item with
  | PDict kvs =>
      match record_content kvs with
      | Some c =>
          if Py.str_eqb (Py.strip c) [] then []
          else if Py.eq_str (record_type kvs) (py "human")
                  || Py.contains (py "HumanMessage") (Py.str isprintable item)
          then [HumanMessage (Py.strip c)]
          else if Py.eq_str (record_type kvs) (py "ai")
                  || Py.contains (py "AIMessage") (Py.str isprintable item)
          then [AIMessage (Py.strip c)]
          else []
      | None => []
      end
  | _ => []
  end.

(** ** Example inputs *)

(** The store file the application uses. *)
Definition store := "chat_memory.json".

(** The file [json.dump] writes for a value, with the reference codec. *)
Definition file_of (v : pyval) : bytes :=
  match Reference.json_dump v with Ok text => text | Raise _ => "" end.

(** An array with records of both shapes, records without content and
    entries that are no objects. *)
Definition mixed_entries : list pyval :=
  [ flat_record (py "human") (py "hi"); PInt 5; nested_record (py "ai") [];
    nested_record (py "ai") (py "yes"); PStr (py "x"); flat_record (py "human") [] ].

(** A record whose content starts with a space. *)
Definition padded_entries : list pyval := [ flat_record (py "human") (py " hi") ].

(** A question and its answer. *)
Definition short_talk : ConversationBufferMemory :=
  {| messages := [HumanMessage (py "hola"); AIMessage (py "buenas, en que ayudo?")] |}.

(** A message whose content starts with a space. *)
Definition padded_talk : ConversationBufferMemory :=
  {| messages := [HumanMessage (py " hi")] |}.

(** The dictionaries [main] passes to [save_context] for a turn. *)
Definition turn_input (question : pystr) : gmap pystr pystr := {[ py "input" := question ]}.
Definition turn_output (answer : pystr) : gmap pystr pystr := {[ py "output" := answer ]}.

(** A message of one space. *)
Definition blank_talk : ConversationBufferMemory :=
  {| messages := [HumanMessage (py " ")] |}.

(** A store file that is no JSON, next to an older backup. *)
Definition corrupt_disk : fs := {[ store := "{oops"; store +:+ ".bak" := "older backup" ]}.

(** A store file written by an earlier save. *)
Definition old_disk : fs := {[ store := file_of (PList (PersistentChatMemory.saved_records short_talk)) ]}.

(** A record with an unknown tag whose text names the assistant's class. *)
Definition note_record : list (pystr * pyval) :=
  [ (py "type", PStr (py "note")); (py "content", PStr (py " see AIMessage ")) ].

(** A record without a tag whose text names both classes. *)
Definition memo_record : list (pystr * pyval) :=
  [ (py "data", PDict [ (py "content", PStr (py "HumanMessage and AIMessage")) ]) ].

(** The same question asked twice. *)
Definition repeated_talk : ConversationBufferMemory :=
  {| messages := [HumanMessage (py "hola"); HumanMessage (py "hola")] |}.

(** The same question stored twice. *)
Definition repeated_entries : list pyval :=
  [ nested_record (py "human") (py "hola"); nested_record (py "human") (py "hola") ].

(** A vector index for the examples: the chunks it holds; it is true when
    it holds one, a search returns the first [k], and one document can be
    ingested. *)
Definition toy_bool (db : list pystr) : bool :=
  match db with [] => false | _ :: _ => true end.
Definition toy_search (db : list pystr) (question : pystr) (k : nat)
  : list pystr + string := inl (take k db).
Definition toy_build (file_path : string) : list pystr * nat + string :=
  if String.eqb file_path "data/documento.pdf"
  then inl ([py "uno"; py "dos"], 2)
  else inr "no such file".

(** A valid record followed by one whose content is [null]. *)
Definition null_entries : list pyval :=
  [ flat_record (py "human") (py "hi");
    PDict [ (py "type", PStr (py "human")); (py "content", PNone) ] ].

(** *** Notions for the other functions *)

(** The record has no [data] field. *)
Definition has_no_data (item : pyval) : bool :=
  match item with
  | PDict kvs => forallb (fun kv => negb (Py.str_eqb kv.1 (py "data"))) kvs
  | _ => true
  end.

(** [str(item)] holds neither class name. *)
Definition names_no_class {rt : Runtime} (item : pyval) : bool :=
  match item with
  | PDict _ =>
      negb (Py.contains (py "HumanMessage") (Py.str isprintable item))
      && negb (Py.contains (py "AIMessage") (Py.str isprintable item))
  | _ => true
  end.

(** The display entry of a message. *)
Definition entry_of (m : BaseMessage) : App.ui_message :=
  {| App.role := match m with HumanMessage _ => "user" | AIMessage _ => "assistant" end;
     App.ui_content := PStr (content m) |}.

(** The messages [_atomic_save] writes. *)
Definition kept (memory : ConversationBufferMemory) : list BaseMessage :=
  List.filter (fun m => Py.truthy (PStr (content m))) (messages memory).

(** The two entries [backup_message_to_json] adds for a turn. *)
Definition backup_turn (user_input assistant_output now_user now_ai : pystr) : list pyval :=
  [ Session.backup_entry (py "human") user_input now_user;
    Session.backup_entry (py "ai") assistant_output now_ai ].

(** The two display entries of a turn. *)
Definition user_entry (text : pystr) : App.ui_message :=
  {| App.role := "user"; App.ui_content := PStr text |}.
Definition assistant_entry (text : pystr) : App.ui_message :=
  {| App.role := "assistant"; App.ui_content := PStr text |}.

(** A turn as the backup file records it. *)
Record turn : Type := {
  question : pystr;
  answer : pystr;
  asked_at : pystr;
  answered_at : pystr
}.

Definition backup_array (turns : list turn) : list pyval :=
  flat_map (fun t => backup_turn (question t) (answer t) (asked_at t) (answered_at t)) turns.

(** The messages the loader makes of a turn: stripped, and none for a
    text that strips to nothing. *)
Definition restored (t : turn) : list BaseMessage :=
  (if Py.str_eqb (Py.strip (question t)) [] then [] else [HumanMessage (Py.strip (question t))])
  ++ (if Py.str_eqb (Py.strip (answer t)) [] then [] else [AIMessage (Py.strip (answer t))]).

(** Neither the answer nor its timestamp holds the text ["HumanMessage"]. *)
Definition unambiguous (t : turn) : bool :=
  negb (Py.contains (py "HumanMessage") (answer t))
  && negb (Py.contains (py "HumanMessage") (answered_at t)).

(** *** What a record gives *)

(** The messages a record tagged [t] with the text [c] is loaded as, in
    either shape: none when the text strips to nothing, else one message
    with the stripped text, the user's for the tag [human] and for a text
    that holds ["HumanMessage"], the assistant's otherwise. *)
Definition shape_messages (t c : pystr) : list BaseMessage :=
  if Py.str_eqb (Py.strip c) [] then []
  else if Py.str_eqb t (py "human") || Py.contains (py "HumanMessage") c
       then [HumanMessage (Py.strip c)]
       else [AIMessage (Py.strip c)].

(** The first loop of [load_chat_history] can read the record: it is no
    object, or its [data] is an object. *)
Definition displayable (item : pyval) : bool :=
  match item with
  | PDict kvs =>
      match Py.dict_get kvs (py "data") (PDict []) with
      | PDict _ => true
      | _ => false
      end
  | _ => true
  end.

(** The display entries of one record of the store file: one entry for a
    record whose content is true as a condition, with the role [user] for
    the tag [human] and [assistant] for every other tag; none otherwise. *)
Definition display_entries (item : pyval) : list App.ui_message :=
  match item with
  | PDict kvs =>
      match Py.dict_get kvs (py "data") (PDict []) with
      | PDict fields =>
          let text := Py.dict_get fields (py "content")
                        (Py.dict_get kvs (py "content") (PStr [])) in
          if Py.truthy text
          then [ {| App.role := if Py.eq_str (Py.dict_get kvs (py "type") PNone) (py "human")
                                then "user" else "assistant";
                    App.ui_content := text |} ]
          else []
      | _ => []
      end
  | _ => []
  end.

(** *** Example inputs for the other functions *)

(** A text [json.dump] cannot encode: a lone surrogate. *)
Definition broken_text : pystr := [55296%N].

(** A completion service for the examples. *)
Definition toy_complete (prompt : pystr) (docs : list pystr) (history : list BaseMessage)
  : result pystr :=
  if Py.str_eqb prompt (py "calla") then Ok []
  else if Py.str_eqb prompt (py "falla") then Raise (LibraryError "connection refused")
  else if Py.str_eqb prompt (py "rompe") then Ok broken_text
  else Ok (py "segun el documento: " ++ concat docs).

(** A session with an indexed document and one without. *)
Definition indexed_session : Session.session (list pystr) :=
  {| Session.rag := {| RAGSystem.vector_db := Some [py "uno"; py "dos"] |};
     Session.memory := Memory.new; Session.shown := [] |}.
Definition unindexed_session : Session.session (list pystr) :=
  {| Session.rag := RAGSystem.__init__ (list pystr);
     Session.memory := Memory.new; Session.shown := [] |}.

(** Two turns of a backup file. *)
Definition backup_turns : list turn :=
  [ {| question := py "hola"; answer := py " buenas "; asked_at := py "2025-01-01 10:00:00.000001";
       answered_at := py "2025-01-01 10:00:02.000001" |};
    {| question := py "y el pdf?"; answer := py "trata de memoria";
       asked_at := py "2025-01-01 10:01:00.000001";
       answered_at := py "2025-01-01 10:01:03.000001" |} ].

(** The file [json.dump(..., indent=2)] writes, with the reference codec. *)
Definition ascii_file_of (v : pyval) : bytes := Reference.json_dump_ascii v.

(** Flat records, with and without content, and entries that are no
    records. *)
Definition mixed_flat_entries : list pyval :=
  [ flat_record (py "human") (py " hi"); PInt 5; flat_record (py "ai") [];
    flat_record (py "ai") (py "yes"); flat_record (py "system") (py "be brief") ].

(** Two timestamps. *)
Definition stamp_q := py "2025-01-01 10:00:00.000001".
Definition stamp_a := py "2025-01-01 10:00:02.000001".

(** A page for the examples: it shows every text but one that holds a
    surrogate code point, which cannot be encoded. *)
Definition toy_markdown (text : pystr) : result unit :=
  if forallb (fun c => negb ((55296 <=? c) && (c <=? 57343))%N) text
  then Ok tt else Raise UnicodeError.

(** [handle_prompt] with the example index, service, page and codec. *)
Definition toy_handle :=
  Session.handle_prompt (rt := Reference.runtime) (list pystr) pystr toy_bool toy_search
    Reference.json_dump_ascii toy_complete toy_markdown store.

(** A run-time environment whose disk is full: [json.dump] fails on
    every write to a file. *)
Definition full_disk : Runtime :=
  Build_Runtime Reference.isprintable
    (fun _ => Raise (OSError "No space left on device")) Reference.json_load.

(** [handle_prompt] on the full disk. *)
Definition toy_handle_full_disk :=
  Session.handle_prompt (rt := full_disk) (list pystr) pystr toy_bool toy_search
    Reference.json_dump_ascii toy_complete toy_markdown store.

(** An ingestion for the examples that also takes a scanned document, from
    which no text and so no chunk comes. *)
Definition toy_build_scan (file_path : string) : list pystr * nat + string :=
  if String.eqb file_path "data/escaneado.pdf" then inl ([], 0)
  else toy_build file_path.

(** ** Proof automation *)

(** Proves that [str(item)] of a concrete record around the text [c] is a
    prefix, [repr(c)] and a suffix: unfolds the rendering with [repr(c)]
    kept abstract, then brings both sides to right-nested appends. *)
Ltac around_text c :=
  unfold Py.str, flat_record, nested_record, message_to_dict;
  cbn [Py.repr List.map Py.join fst snd app content type];
  generalize (Py.repr_str isprintable c); intros ?;
  cbv -[app]; repeat (progress (cbn [app]; rewrite <- ?app_assoc)); reflexivity.

(* ===================================================================== *)
(** * Part II: lemmas and theorems *)
(* ===================================================================== *)

(** ** Paths *)

Lemma append_ne_self (s t : string) : t <> "" -> s +:+ t <> s.
Proof.
  intros Ht H. apply Ht. clear Ht.
  induction s as [|a s IH]; simpl in H; [done|].
  injection H as H. auto.
Qed.

Lemma append_suffix_ne (s t u : string) : t <> u -> s +:+ t <> s +:+ u.
Proof. intros Htu H. apply Htu. by apply (String.app_inj s). Qed.

Lemma backup_path_ne path : path +:+ ".bak" <> path.
Proof. by apply append_ne_self. Qed.

Lemma temp_path_ne path : PersistentChatMemory.temp_path path <> path.
Proof. by apply append_ne_self. Qed.

Lemma temp_backup_ne path : PersistentChatMemory.temp_path path <> path +:+ ".bak".
Proof. by apply append_suffix_ne. Qed.

(** ** [str] equality, [strip] *)

Lemma str_eqb_eq s t : Py.str_eqb s t = true <-> s = t.
Proof. unfold Py.str_eqb. apply bool_decide_eq_true. Qed.

Lemma str_eqb_neq s t : Py.str_eqb s t = false <-> s <> t.
Proof. unfold Py.str_eqb. apply bool_decide_eq_false. Qed.

Lemma lstrip_head s c t : Py.lstrip s = c :: t -> Py.isspace c = false.
Proof.
  induction s as [|a s IH]; simpl; [done|].
  destruct (Py.isspace a) eqn:Ha; [done|].
  intros [= -> _]. done.
Qed.

Lemma lstrip_blank s : blank s = true -> Py.lstrip s = [].
Proof.
  induction s as [|a s IH]; simpl; [done|].
  intros [Ha Hs]%andb_prop. rewrite Ha. auto.
Qed.

Lemma strip_blank s : blank s = true -> Py.strip s = [].
Proof.
  intros H. unfold Py.strip, Py.rstrip. by rewrite (lstrip_blank s H).
Qed.

(** What [strip] leaves is empty or ends in a character that is no white
    space. *)
Lemma strip_not_blank s : Py.strip s <> [] -> blank (Py.strip s) = false.
Proof.
  unfold Py.strip, Py.rstrip. intros H.
  destruct (Py.lstrip (rev (Py.lstrip s))) as [|c t] eqn:E; [done|].
  apply lstrip_head in E. unfold blank. simpl.
  rewrite forallb_app. simpl. rewrite E. by rewrite andb_false_r.
Qed.

Lemma trimmed_strip s : trimmed s = true -> Py.strip s = s.
Proof. apply str_eqb_eq. Qed.

(** ** Substrings *)

Lemma startswith_sep needle sep X Y :
  avoids sep needle = true ->
  Py.startswith (X ++ sep :: Y) needle = Py.startswith X needle.
Proof.
  revert X. induction needle as [|a n IH]; intros X H; [done|].
  simpl in H. apply andb_prop in H as [Ha Hn].
  destruct X as [|x X]; simpl.
  - apply negb_true_iff in Ha. by rewrite Ha.
  - by rewrite IH.
Qed.

(** A needle without the separator lies on one side of it. *)
Lemma contains_sep needle sep X Y :
  avoids sep needle = true ->
  Py.contains needle (X ++ sep :: Y) = Py.contains needle X || Py.contains needle Y.
Proof.
  intros H. induction X as [|x X IH].
  - change ([] ++ sep :: Y) with (sep :: Y).
    cbn [Py.contains]. rewrite <- (startswith_sep needle sep [] Y H).
    simpl. by rewrite orb_false_r.
  - change ((x :: X) ++ sep :: Y) with (x :: (X ++ sep :: Y)).
    cbn [Py.contains]. rewrite IH.
    change (x :: (X ++ sep :: Y)) with ((x :: X) ++ sep :: Y).
    rewrite (startswith_sep needle sep (x :: X) Y H). by rewrite orb_assoc.
Qed.

(** A needle does not start inside a stretch that lacks its first
    character. *)
Lemma contains_skip first rest tail R :
  avoids first tail = true ->
  Py.contains (first :: rest) (tail ++ R) = Py.contains (first :: rest) R.
Proof.
  intros H. induction tail as [|t tail IH]; [done|].
  simpl in H. apply andb_prop in H as [Ht Htail].
  cbn [app Py.contains Py.startswith]. rewrite IH by done.
  apply negb_true_iff in Ht. rewrite N.eqb_sym in Ht. by rewrite Ht.
Qed.

Section Escapes.
(** How each character is shown: as itself, or as a backslash and a
    tail without [first]. *)
Variable esc : N -> pystr.
Variable first : N.
Hypothesis esc_shape : forall c,
  esc c = [c] \/ exists tail, esc c = Py.backslash :: tail /\ avoids first tail = true.

Let shown_plain (a : N) : Prop := esc a = [a] /\ a <> Py.backslash.

Lemma startswith_escaped needle l :
  Forall shown_plain needle ->
  Py.startswith (concat (List.map esc l)) needle = Py.startswith l needle.
Proof using esc_shape.
  intros Hplain. revert l. induction Hplain as [|a n [Ha Hb] Hn IH]; intros l; [done|].
  destruct l as [|c l]; [done|].
  cbn [List.map concat]. destruct (esc_shape c) as [E | (tail & E & _)]; rewrite E.
  - cbn [app Py.startswith]. by rewrite IH.
  - cbn [app Py.startswith].
    assert ((a =? Py.backslash)%N = false) as -> by by apply N.eqb_neq.
    assert ((a =? c)%N = false) as ->; [|done].
    apply N.eqb_neq. intros ->. congruence.
Qed.

Lemma contains_escaped rest l :
  Forall shown_plain (first :: rest) ->
  Py.contains (first :: rest) (concat (List.map esc l)) = Py.contains (first :: rest) l.
Proof using esc_shape.
  intros Hplain. induction l as [|c l IH]; [done|].
  pose proof (startswith_escaped (first :: rest) (c :: l) Hplain) as Hs.
  cbn [List.map concat] in Hs |- *.
  destruct (esc_shape c) as [E | (tail & E & Htail)]; rewrite E in Hs |- *.
  - change ([c] ++ concat (List.map esc l)) with (c :: concat (List.map esc l)) in Hs |- *.
    cbn [Py.contains]. by rewrite Hs, IH.
  - change ((Py.backslash :: tail) ++ concat (List.map esc l))
      with (Py.backslash :: (tail ++ concat (List.map esc l))) in Hs |- *.
    cbn [Py.contains]. rewrite Hs.
    rewrite (contains_skip first rest tail _ Htail). by rewrite IH.
Qed.
End Escapes.

(** ** [repr] of a text *)

Lemma hex_digit_alphabet d : (d < 16)%N -> escape_alphabet (Py.hex_digit d) = true.
Proof.
  intros H.
  assert (Hd : In d (List.map N.of_nat (seq 0 16))).
  { apply in_map_iff. exists (N.to_nat d). split; [lia|]. apply in_seq. lia. }
  simpl in Hd. repeat (destruct Hd as [<- | Hd]; [by vm_compute|]). done.
Qed.

Lemma hex_alphabet w c : forallb escape_alphabet (Py.hex w c) = true.
Proof.
  revert c. induction w as [|w IH]; intros c; [done|].
  simpl. rewrite forallb_app, IH. simpl.
  rewrite hex_digit_alphabet; [done|]. apply N.mod_lt. done.
Qed.

Lemma avoids_alphabet first tail :
  escape_alphabet first = false -> forallb escape_alphabet tail = true ->
  avoids first tail = true.
Proof.
  intros Hf Ht. unfold avoids. apply forallb_forall. intros x Hx.
  rewrite forallb_forall in Ht. specialize (Ht x Hx).
  apply negb_true_iff, N.eqb_neq. intros ->. congruence.
Qed.

Lemma repr_quote_cases s : Py.repr_quote s = Py.squote \/ Py.repr_quote s = Py.dquote.
Proof. unfold Py.repr_quote. destruct (_ && _); auto. Qed.

(** Every character is shown as itself or as an escape over the escape
    alphabet. *)
Lemma repr_char_shape isprintable q c :
  q = Py.squote \/ q = Py.dquote ->
  Py.repr_char isprintable q c = [c]
  \/ exists tail, Py.repr_char isprintable q c = Py.backslash :: tail
                  /\ forallb escape_alphabet tail = true.
Proof.
  intros Hq. unfold Py.repr_char.
  destruct ((c =? q) || (c =? Py.backslash))%N eqn:E1.
  { right. exists [c]. split; [done|]. simpl. rewrite andb_true_r.
    apply orb_prop in E1 as [->%N.eqb_eq | ->%N.eqb_eq]; [|done].
    by destruct Hq as [-> | ->]. }
  destruct (c =? 9)%N; [right; by exists (py "t")|].
  destruct (c =? 10)%N; [right; by exists (py "n")|].
  destruct (c =? 13)%N; [right; by exists (py "r")|].
  destruct ((c <? 32) || (c =? 127))%N.
  { right. exists (py "x" ++ Py.hex 2 c). split; [done|]. apply (hex_alphabet 2). }
  destruct (c <? 127)%N; [by left|].
  destruct (isprintable c); [by left|].
  destruct (c <=? 255)%N.
  { right. exists (py "x" ++ Py.hex 2 c). split; [done|]. apply (hex_alphabet 2). }
  destruct (c <=? 65535)%N.
  { right. exists (py "u" ++ Py.hex 4 c). split; [done|]. apply (hex_alphabet 4). }
  right. exists (py "U" ++ Py.hex 8 c). split; [done|]. apply (hex_alphabet 8).
Qed.

Lemma repr_char_plain isprintable q a :
  q = Py.squote \/ q = Py.dquote -> is_plain a = true ->
  Py.repr_char isprintable q a = [a] /\ a <> Py.backslash.
Proof.
  intros Hq H. unfold is_plain in H.
  repeat (apply andb_prop in H as [H ?]).
  repeat match goal with H : negb _ = true |- _ => apply negb_true_iff, N.eqb_neq in H end.
  apply N.leb_le in H. apply N.ltb_lt in H3.
  split; [|done]. unfold Py.repr_char.
  assert ((a =? q)%N = false) as -> by (apply N.eqb_neq; by destruct Hq as [-> | ->]).
  assert ((a =? Py.backslash)%N = false) as -> by by apply N.eqb_neq.
  assert ((a =? 9)%N = false) as -> by (apply N.eqb_neq; lia).
  assert ((a =? 10)%N = false) as -> by (apply N.eqb_neq; lia).
  assert ((a =? 13)%N = false) as -> by (apply N.eqb_neq; lia).
  assert ((a <? 32)%N = false) as -> by (apply N.ltb_ge; lia).
  assert ((a =? 127)%N = false) as -> by (apply N.eqb_neq; lia).
  assert ((a <? 127)%N = true) as -> by (apply N.ltb_lt; lia).
  done.
Qed.

Lemma plain_avoids_quote q needle :
  q = Py.squote \/ q = Py.dquote -> forallb is_plain needle = true ->
  avoids q needle = true.
Proof.
  intros Hq Hplain. unfold avoids. apply forallb_forall. intros x Hx.
  rewrite forallb_forall in Hplain. specialize (Hplain x Hx).
  unfold is_plain in Hplain. repeat (apply andb_prop in Hplain as [Hplain ?]).
  by destruct Hq as [-> | ->].
Qed.

(** A needle of plain characters that starts with none of the escape
    letters occurs in the shown text exactly when it occurs in the text. *)
Lemma contains_repr_body isprintable q first rest s :
  q = Py.squote \/ q = Py.dquote ->
  escape_alphabet first = false ->
  forallb is_plain (first :: rest) = true ->
  Py.contains (first :: rest) (Py.repr_body isprintable q s) = Py.contains (first :: rest) s.
Proof.
  intros Hq Hfirst Hplain. unfold Py.repr_body.
  apply (contains_escaped (Py.repr_char isprintable q) first).
  - intros c. destruct (repr_char_shape isprintable q c Hq) as [E | (tail & E & Ht)]; [by left|].
    right. exists tail. split; [done|]. by apply avoids_alphabet.
  - apply Forall_forall. intros a Ha. rewrite forallb_forall in Hplain.
    apply repr_char_plain; [done|]. apply Hplain. by apply list_elem_of_In.
Qed.

(** The same for [repr(s)] between two other texts. *)
Lemma contains_around isprintable needle A B s :
  searchable needle = true ->
  Py.contains needle (A ++ Py.repr_str isprintable s ++ B)
  = Py.contains needle A || Py.contains needle s || Py.contains needle B.
Proof.
  destruct needle as [|first rest]; [done|].
  intros [Hfirst%negb_true_iff Hplain]%andb_prop. unfold Py.repr_str.
  pose proof (repr_quote_cases s) as Hq. set (q := Py.repr_quote s) in *.
  pose proof (plain_avoids_quote q _ Hq Hplain) as Hav.
  change (A ++ (q :: Py.repr_body isprintable q s ++ [q]) ++ B)
    with (A ++ q :: ((Py.repr_body isprintable q s ++ [q]) ++ B)).
  rewrite <- app_assoc. change ([q] ++ B) with (q :: B).
  rewrite !contains_sep by done.
  rewrite contains_repr_body by done. by rewrite orb_assoc.
Qed.

Import PersistentChatMemory.

(** ** The rendering of a record around its content *)

Section Rendering.
Context {rt : Runtime}.

(** [str(item)] of the three records of interest, with [repr] of the
    content in the middle. *)
Lemma str_flat_ai c :
  Py.str isprintable (flat_record (py "ai") c)
  = py "{'type': 'ai', 'content': " ++ Py.repr_str isprintable c ++ py "}".
Proof. around_text c. Qed.

Lemma str_nested_ai c :
  Py.str isprintable (nested_record (py "ai") c)
  = py "{'type': 'ai', 'data': {'content': " ++ Py.repr_str isprintable c ++ py "}}".
Proof. around_text c. Qed.

Lemma str_saved_ai c :
  Py.str isprintable (message_to_dict (AIMessage c))
  = py "{'type': 'ai', 'data': {'content': " ++ Py.repr_str isprintable c
    ++ py ", 'additional_kwargs': {}, 'response_metadata': {}, 'type': 'ai', 'name': None, 'id': None, 'example': False, 'tool_calls': [], 'invalid_tool_calls': [], 'usage_metadata': None}}".
Proof. around_text c. Qed.

(** So the test of line 63 on an [ai] record is a test on its content. *)
Lemma human_in_flat_ai c :
  Py.contains (py "HumanMessage") (Py.str isprintable (flat_record (py "ai") c))
  = Py.contains (py "HumanMessage") c.
Proof.
  rewrite str_flat_ai, (contains_around isprintable) by done.
  by rewrite orb_false_r.
Qed.

Lemma human_in_nested_ai c :
  Py.contains (py "HumanMessage") (Py.str isprintable (nested_record (py "ai") c))
  = Py.contains (py "HumanMessage") c.
Proof.
  rewrite str_nested_ai, (contains_around isprintable) by done.
  by rewrite orb_false_r.
Qed.

Lemma human_in_saved_ai c :
  Py.contains (py "HumanMessage") (Py.str isprintable (message_to_dict (AIMessage c)))
  = Py.contains (py "HumanMessage") c.
Proof.
  rewrite str_saved_ai, (contains_around isprintable) by done.
  by rewrite orb_false_r.
Qed.
End Rendering.

(** ** Loading *)

Section Loading.
Context {rt : Runtime}.
Variable path : string.

(** The loop body on a record it can read, and on one it cannot. *)
Lemma validate_item_readable item acc :
  readable item = true ->
  validate_item item acc = Ok (acc ++ loaded_messages item).
Proof.
  destruct item as [| | | | |l|kvs]; simpl; intros H; try by rewrite app_nil_r.
  unfold validate_item, loaded_messages, record_content, record_type in *.
  destruct (Py.dict_get kvs (py "data") (PDict [])) as [| | | | | |fields]; try done.
  cbn [Py.get mbind result_bind].
  destruct (Py.dict_get fields (py "content") _) as [| | | |c| |]; try done.
  cbn [Py.strip_method mbind result_bind Py.truthy]. rewrite negb_involutive.
  destruct (Py.str_eqb (Py.strip c) []); [by rewrite app_nil_r|].
  destruct (_ || _); [done|]. destruct (_ || _); [done|]. by rewrite app_nil_r.
Qed.

Lemma validate_item_unreadable item acc :
  readable item = false -> validate_item item acc = Raise AttributeError.
Proof.
  destruct item as [| | | | |l|kvs]; simpl; try done.
  unfold validate_item, record_content.
  destruct (Py.dict_get kvs (py "data") (PDict [])) as [| | | | | |fields]; try done.
  cbn [Py.get mbind result_bind].
  by destruct (Py.dict_get fields (py "content") _) as [| | | |c| |].
Qed.

Lemma for_each_readable items acc :
  forallb readable items = true ->
  for_each validate_item items acc = Ok (acc ++ flat_map loaded_messages items).
Proof.
  revert acc. induction items as [|item items IH]; intros acc H; simpl.
  - by rewrite app_nil_r.
  - apply andb_prop in H as [Hi Hs]. rewrite validate_item_readable by done.
    cbn [mbind result_bind]. rewrite IH by done. by rewrite <- app_assoc.
Qed.

Lemma for_each_unreadable items acc :
  forallb readable items = false ->
  exists e, for_each validate_item items acc = Raise e.
Proof.
  revert acc. induction items as [|item items IH]; intros acc H; simpl in *; [done|].
  destruct (readable item) eqn:Hi.
  - rewrite validate_item_readable by done. cbn [mbind result_bind]. by apply IH.
  - rewrite validate_item_unreadable by done. by eexists.
Qed.

(** The [try] block on a file that holds an array of readable records. *)
Lemma load_messages_readable (d : fs) text items memory :
  d !! path = Some text -> json_load text = Ok (PList items) ->
  forallb readable items = true ->
  load_messages path d memory
  = Ok (match flat_map loaded_messages items with
        | [] => memory
        | _ :: _ => {| messages := flat_map loaded_messages items |}
        end).
Proof.
  intros Hd Hj Hr. unfold load_messages, Os.read. rewrite Hd.
  cbn [mbind result_bind]. rewrite Hj. cbn [mbind result_bind].
  rewrite for_each_readable by done. cbn [mbind result_bind app].
  by destruct (flat_map loaded_messages items).
Qed.

Lemma init_missing (d : fs) :
  d !! path = None -> __init__ path d = Ok (d, Memory.new).
Proof.
  intros H. unfold __init__, _verify_and_load, Os.path_exists. simpl. by rewrite H.
Qed.

Lemma init_loaded (d : fs) text memory :
  d !! path = Some text ->
  load_messages path d Memory.new = Ok memory ->
  __init__ path d = Ok (d, memory).
Proof.
  intros Hd Hl. unfold __init__, _verify_and_load, Os.path_exists. simpl.
  rewrite Hd. simpl. rewrite Hl. done.
Qed.

Lemma init_backup (d : fs) text e :
  d !! path = Some text ->
  load_messages path d Memory.new = Raise e ->
  __init__ path d = Ok (<[path +:+ ".bak" := text]> (delete path d), Memory.new).
Proof.
  intros Hd Hl. unfold __init__, _verify_and_load, Os.path_exists. simpl.
  rewrite Hd. simpl. rewrite Hl. simpl.
  unfold _backup_and_reset, Os.path_exists, Os.rename. simpl. rewrite Hd. done.
Qed.

Lemma init_readable (d : fs) text items :
  d !! path = Some text -> json_load text = Ok (PList items) ->
  forallb readable items = true ->
  __init__ path d = Ok (d, {| messages := flat_map loaded_messages items |}).
Proof.
  intros Hd Hj Hr. rewrite (init_loaded d text _ Hd (load_messages_readable d text items _ Hd Hj Hr)).
  by destruct (flat_map loaded_messages items).
Qed.

Lemma load_messages_invalid_json (d : fs) text e memory :
  d !! path = Some text -> json_load text = Raise e ->
  load_messages path d memory = Raise e.
Proof.
  intros Hd Hj. unfold load_messages, Os.read. rewrite Hd.
  cbn [mbind result_bind]. by rewrite Hj.
Qed.

(** One record whose [data] is no object, or whose content is no text,
    ends the load of the whole array: the file is moved aside. *)
Lemma init_unreadable (d : fs) text items :
  d !! path = Some text -> json_load text = Ok (PList items) ->
  forallb readable items = false ->
  __init__ path d = Ok (<[path +:+ ".bak" := text]> (delete path d), Memory.new).
Proof.
  intros Hd Hj Hr. destruct (for_each_unreadable items [] Hr) as [e He].
  apply (init_backup d text e Hd).
  unfold load_messages, Os.read. rewrite Hd. cbn [mbind result_bind].
  rewrite Hj. cbn [mbind result_bind]. by rewrite He.
Qed.

(** Whatever the file system holds, the constructor returns; the memory
    it returns has messages from readable records only. *)
Lemma init_cases (d : fs) :
  __init__ path d = Ok (d, Memory.new)
  \/ (exists items, forallb readable items = true
        /\ __init__ path d = Ok (d, {| messages := flat_map loaded_messages items |}))
  \/ (exists text, d !! path = Some text
        /\ __init__ path d = Ok (<[path +:+ ".bak" := text]> (delete path d), Memory.new)).
Proof.
  destruct (d !! path) as [text|] eqn:Hd; [|left; by apply init_missing].
  destruct (load_messages path d Memory.new) as [memory|e] eqn:Hl.
  - right; left. unfold load_messages, Os.read in Hl. rewrite Hd in Hl.
    cbn [mbind result_bind] in Hl.
    destruct (json_load text) as [data|] eqn:Hj; [|done]. cbn [mbind result_bind] in Hl.
    destruct data as [| | | | |items|]; try done. cbn [mbind result_bind] in Hl.
    destruct (forallb readable items) eqn:Hr.
    + exists items. split; [done|]. by apply (init_readable d text).
    + destruct (for_each_unreadable items [] Hr) as [e He]. rewrite He in Hl. done.
  - right; right. exists text. split; [done|]. by apply (init_backup d text e).
Qed.
End Loading.

(** ** Saving *)

Section Saving.
Context {rt : Runtime}.
Variable path : string.

(** The four file operations leave the new text at [path] and no
    temporary file. *)
Lemma run_save_steps (d : fs) text :
  run_steps (save_steps path text) d
  = (<[path := text]> (delete (temp_path path) d), Ok tt).
Proof.
  pose proof (temp_path_ne path) as Hne.
  unfold save_steps. cbn [run_steps]. unfold Os.open_w, Os.write, Os.path_exists, Os.remove.
  rewrite insert_insert_eq.
  rewrite (lookup_insert_ne d (temp_path path) path) by done.
  assert (Hfinal : forall d' : fs,
             d' !! temp_path path = Some text ->
             (forall i, i <> path -> i <> temp_path path -> d' !! i = d !! i) ->
             run_steps [fun d0 : fs => Os.rename d0 (temp_path path) path] d'
             = (<[path := text]> (delete (temp_path path) d), Ok tt)).
  { intros d' Ht Hother. cbn [run_steps]. unfold Os.rename. rewrite Ht.
    f_equal. apply map_eq. intros i.
    destruct (decide (i = path)) as [->|Hi]; [by rewrite !lookup_insert_eq|].
    rewrite !lookup_insert_ne by done.
    destruct (decide (i = temp_path path)) as [->|Hi']; [by rewrite !lookup_delete_eq|].
    rewrite !lookup_delete_ne by done. by apply Hother. }
  destruct (d !! path) eqn:Hd.
  - apply Hfinal.
    + rewrite lookup_delete_ne by done. by rewrite lookup_insert_eq.
    + intros i Hi Hi'. rewrite lookup_delete_ne by done. by rewrite lookup_insert_ne.
  - apply Hfinal.
    + by rewrite lookup_insert_eq.
    + intros i Hi Hi'. by rewrite lookup_insert_ne.
Qed.

Lemma atomic_save_ok (d : fs) memory text :
  json_dump (PList (saved_records memory)) = Ok text ->
  _atomic_save path (d, memory)
  = ((<[path := text]> (delete (temp_path path) d), memory), Ok tt).
Proof.
  intros Hj. unfold _atomic_save. cbn [fst snd]. rewrite Hj, run_save_steps. done.
Qed.

Lemma atomic_save_raises (d : fs) memory e :
  json_dump (PList (saved_records memory)) = Raise e ->
  _atomic_save path (d, memory) = ((delete (temp_path path) d, memory), Raise e).
Proof.
  intros Hj. unfold _atomic_save. cbn [fst snd]. rewrite Hj.
  unfold save_failed, Os.open_w, Os.path_exists, Os.remove.
  rewrite lookup_insert_eq. by rewrite delete_insert_eq.
Qed.

(** Property X10. The store file during a save: between [os.remove] and
    [os.rename] it is gone; at every other point, also while the temporary
    file is half written, it is as it was before the save, or it holds the
    new text. *)
Lemma interrupted_store_cases (d : fs) text i :
  (i = AfterStep 3 -> interrupted_save path text d i !! path = None)
  /\ (i <> AfterStep 3 ->
      interrupted_save path text d i !! path = d !! path
      \/ interrupted_save path text d i !! path = Some text).
Proof.
  pose proof (temp_path_ne path) as Hne.
  destruct i as [k|n]; [|split; [done|intros _; left]].
  - unfold interrupted_save.
    destruct k as [|[|[|[|k]]]]; [cbn [take save_steps]..|]; split; try done.
    + by left.
    + intros _. left. cbn [run_steps fst]. unfold Os.open_w. by rewrite lookup_insert_ne.
    + intros _. left. cbn [run_steps fst]. unfold Os.open_w, Os.write.
      by rewrite !lookup_insert_ne.
    + intros _. cbn [run_steps]. unfold Os.open_w, Os.write, Os.path_exists, Os.remove.
      rewrite !(lookup_insert_ne _ (temp_path path) path) by done.
      destruct (d !! path) eqn:Hd; cbn [fst].
      * by rewrite lookup_delete_eq.
      * by rewrite !lookup_insert_ne.
    + intros _. right.
      assert (take (S (S (S (S k)))) (save_steps path text) = save_steps path text) as ->
        by by destruct k.
      rewrite run_save_steps. cbn [fst]. by rewrite lookup_insert_eq.
  - unfold interrupted_save, Os.write, Os.open_w. by rewrite !lookup_insert_ne.
Qed.
End Saving.

Section Filtering.
Context {rt : Runtime}.

Lemma listed_readable item : listed_entry item = true -> readable item = true.
Proof.
  destruct item as [| | | | | |kvs]; try done. simpl.
  by destruct (record_content kvs).
Qed.

Lemma loaded_listed item :
  listed_entry item = true -> tag_decides item = true ->
  loaded_messages item = stripped_messages item.
Proof.
  destruct item as [| | | | | |kvs]; try done.
  unfold listed_entry, tag_decides, loaded_messages, stripped_messages, tagged_message.
  destruct (record_content kvs) as [c|]; [|done].
  intros Hl Ht. destruct (Py.str_eqb (Py.strip c) []) eqn:Hs; [done|].
  destruct (Py.eq_str (record_type kvs) (py "human")) eqn:Hh; [done|].
  cbn [orb] in Hl, Ht |- *. apply negb_true_iff in Ht. rewrite Ht.
  destruct (Py.eq_str (record_type kvs) (py "ai")) eqn:Ha; [done|].
  cbn [orb] in Hl. apply str_eqb_eq in Hl. subst c. done.
Qed.

Lemma stripped_trimmed item :
  trimmed_entry item = true -> stripped_messages item = expected_messages item.
Proof.
  destruct item as [| | | | | |kvs]; try done.
  unfold trimmed_entry, stripped_messages, expected_messages.
  destruct (record_content kvs) as [c|]; [|done].
  intros H%trimmed_strip. by rewrite H.
Qed.

Lemma flat_map_ext_forallb {A B} (f g : A -> list B) (p : A -> bool) l :
  (forall x, p x = true -> f x = g x) -> forallb p l = true -> flat_map f l = flat_map g l.
Proof.
  intros Hfg. induction l as [|x l IH]; [done|]. simpl.
  intros [Hx Hl]%andb_prop. by rewrite Hfg, IH.
Qed.

Lemma forallb_and {A} (p q : A -> bool) l :
  forallb p l = true -> forallb q l = true -> forallb (fun x => p x && q x) l = true.
Proof.
  induction l as [|x l IH]; [done|]. simpl.
  intros [-> Hp]%andb_prop [-> Hq]%andb_prop. by rewrite IH.
Qed.

Lemma forallb_impl {A} (p q : A -> bool) l :
  (forall x, p x = true -> q x = true) -> forallb p l = true -> forallb q l = true.
Proof.
  intros Hpq. induction l as [|x l IH]; [done|]. simpl.
  intros [Hx Hl]%andb_prop. by rewrite Hpq, IH.
Qed.

End Filtering.


(** An assistant's record whose text names [HumanMessage] is loaded as a
    user message: the test of line 63 reads the text too. *)
Lemma ai_record_naming_HumanMessage :
  validate_item (rt := Reference.runtime)
    (nested_record (py "ai") (py "build a HumanMessage first")) []
  = Ok [HumanMessage (py "build a HumanMessage first")].
Proof. vm_compute; reflexivity. Qed.

(** One record whose content is [null] moves the whole file aside, the
    valid record before it included. *)
Lemma null_content_aborts_load :
  __init__ (rt := Reference.runtime) store {[ store := file_of (PList null_entries) ]}
  = Ok ({[ store +:+ ".bak" := file_of (PList null_entries) ]}, Memory.new).
Proof. vm_compute; reflexivity. Qed.


Section RoundTrip.
Context {rt : Runtime}.

Lemma saved_readable memory : forallb readable (saved_records memory) = true.
Proof.
  unfold saved_records. induction (List.filter _ _) as [|m l IH]; [done|].
  simpl. rewrite IH. by destruct m.
Qed.

Lemma loaded_saved_stable m :
  stable_message m = true -> loaded_messages (message_to_dict m) = [m].
Proof.
  unfold stable_message. intros [[Ht Hne]%andb_prop Hq]%andb_prop.
  apply trimmed_strip in Ht. apply negb_true_iff in Hne.
  destruct m as [c|c]; simpl in Ht, Hne.
  - unfold loaded_messages. cbn [message_to_dict].
    change (record_content _) with (Some c). cbv beta iota.
    change (record_type _) with (PStr (py "human")).
    rewrite Ht, Hne. done.
  - apply negb_true_iff in Hq. unfold loaded_messages.
    rewrite human_in_saved_ai, Hq. cbn [message_to_dict].
    change (record_content _) with (Some c). cbv beta iota.
    change (record_type _) with (PStr (py "ai")).
    rewrite Ht, Hne. done.
Qed.

Lemma stable_truthy m : stable_message m = true -> Py.truthy (PStr (content m)) = true.
Proof.
  unfold stable_message. intros [[_ Hne]%andb_prop _]%andb_prop. done.
Qed.

Lemma loaded_saved_all_stable l :
  forallb stable_message l = true ->
  flat_map loaded_messages
    (List.map message_to_dict (List.filter (fun m => Py.truthy (PStr (content m))) l)) = l.
Proof.
  induction l as [|m l IH]; [done|]. intros [Hm Hl]%andb_prop.
  cbn [List.filter]. rewrite (stable_truthy m Hm). cbn [List.map flat_map].
  rewrite loaded_saved_stable by done. by rewrite IH.
Qed.

(** Claim C4, as amended. For a conversation of N messages (N may be 0)
    whose contents are not empty, have no white space at their ends and, for
    the assistant's, do not hold the text ["HumanMessage"]: when
    [json.dump] succeeds and [json.load] reads its text back, saving and
    then loading with a fresh instance yields the same N messages, in the
    same order, with the same roles and contents. *)
Theorem save_then_load_round_trip path (d : fs) memory text :
  forallb stable_message (messages memory) = true ->
  json_dump (PList (saved_records memory)) = Ok text ->
  json_load text = Ok (PList (saved_records memory)) ->
  exists d', _atomic_save path (d, memory) = ((d', memory), Ok tt)
             /\ d' !! path = Some text
             /\ __init__ path d' = Ok (d', memory).
Proof.
  intros Hs Hdump Hload. eexists. split; [by apply atomic_save_ok|].
  split; [by rewrite lookup_insert_eq|].
  rewrite (init_readable path _ text (saved_records memory)).
  - unfold saved_records. rewrite loaded_saved_all_stable by done. by destruct memory.
  - by rewrite lookup_insert_eq.
  - done.
  - apply saved_readable.
Qed.
End RoundTrip.

Lemma save_then_load_round_trip_witness :
  (exists d', _atomic_save (rt := Reference.runtime) store (∅, short_talk)
              = ((d', short_talk), Ok tt)
              /\ d' !! store = Some (file_of (PList (saved_records short_talk)))
              /\ __init__ (rt := Reference.runtime) store d' = Ok (d', short_talk))
  /\ (exists d', _atomic_save (rt := Reference.runtime) store (∅, Memory.new)
                 = ((d', Memory.new), Ok tt)
                 /\ d' !! store = Some "[]"
                 /\ __init__ (rt := Reference.runtime) store d' = Ok (d', Memory.new)).
Proof.
  split.
  - apply (save_then_load_round_trip (rt := Reference.runtime) store ∅ short_talk
             (file_of (PList (saved_records short_talk)))); vm_compute; reflexivity.
  - apply (save_then_load_round_trip (rt := Reference.runtime) store ∅ Memory.new "[]");
      vm_compute; reflexivity.
Defined.

(** Claim C4, counterexample. A conversation of one valid message with the
    content [" hi"] is saved; a fresh instance loads the content ["hi"]. *)
Lemma padded_message_changes_in_round_trip :
  forallb valid_message (messages padded_talk) = true
  /\ (exists d', _atomic_save (rt := Reference.runtime) store (∅, padded_talk)
                 = ((d', padded_talk), Ok tt)
                 /\ __init__ (rt := Reference.runtime) store d'
                    = Ok (d', {| messages := [HumanMessage (py "hi")] |}))
  /\ [HumanMessage (py "hi")] <> messages padded_talk.
Proof.
  split; [vm_compute; reflexivity|]. split.
  - exists {[ store := file_of (PList (saved_records padded_talk)) ]}.
    split; vm_compute; reflexivity.
  - vm_compute. intros H. discriminate H.
Qed.

(** ** Write-through *)

Section WriteThrough.
Context {rt : Runtime}.
Variable path : string.

Lemma saved_records_app l1 l2 :
  saved_records {| messages := l1 ++ l2 |}
  = saved_records {| messages := l1 |} ++ saved_records {| messages := l2 |}.
Proof. unfold saved_records. cbn [messages]. by rewrite List.filter_app, List.map_app. Qed.

Lemma atomic_save_memory (st : state) : (_atomic_save path st).1.2 = st.2.
Proof.
  destruct st as [d memory].
  destruct (json_dump (PList (saved_records memory))) as [text|e] eqn:Hj.
  - by rewrite (atomic_save_ok path d memory text Hj).
  - by rewrite (atomic_save_raises path d memory e Hj).
Qed.

Lemma save_context_ok (st st' : state) input_data output_data question answer :
  input_data !! py "input" = Some question ->
  output_data !! py "output" = Some answer ->
  save_context path st input_data output_data = (st', Ok tt) ->
  question <> [] /\ answer <> []
  /\ st' = (_atomic_save path (st.1, Memory.save_context st.2 question answer)).1
  /\ exists text, json_dump (PList (saved_records st'.2)) = Ok text.
Proof.
  intros Hq Ha. unfold save_context. rewrite Hq, Ha.
  destruct (negb (Py.truthy (PStr question)) || negb (Py.truthy (PStr answer))) eqn:E; [done|].
  apply orb_false_elim in E as [E1 E2].
  apply negb_false_iff in E1, E2. cbn [Py.truthy] in E1, E2.
  apply negb_true_iff, str_eqb_neq in E1, E2.
  intros Hs. split; [done|]. split; [done|]. split; [by rewrite Hs|].
  destruct (json_dump (PList (saved_records (Memory.save_context st.2 question answer))))
    as [text|e] eqn:Hj.
  - rewrite (atomic_save_ok path _ _ text Hj) in Hs. injection Hs as <-. by exists text.
  - rewrite (atomic_save_raises path _ _ e Hj) in Hs. done.
Qed.

(** Claim C5, as amended. When [save_context] returns without an exception
    for the question Q and the answer A, and [json.load] reads back the
    text [json.dump] wrote: the memory ends with the user message Q and the
    assistant message A, and the store file holds the text written; when
    moreover Q and A have no white space at their ends (and A does not hold
    the text ["HumanMessage"]), a fresh instance on the same path loads a
    conversation that ends with these two messages. *)
Theorem save_context_write_through (d : fs) memory input_data output_data
    question answer st' text :
  input_data !! py "input" = Some question ->
  output_data !! py "output" = Some answer ->
  save_context path (d, memory) input_data output_data = (st', Ok tt) ->
  json_dump (PList (saved_records st'.2)) = Ok text ->
  json_load text = Ok (PList (saved_records st'.2)) ->
  messages st'.2 = messages memory ++ [HumanMessage question; AIMessage answer]
  /\ st'.1 !! path = Some text
  /\ (stable_message (HumanMessage question) = true ->
      stable_message (AIMessage answer) = true ->
      exists earlier,
        __init__ path st'.1
        = Ok (st'.1, {| messages := earlier ++ [HumanMessage question; AIMessage answer] |})).
Proof.
  intros Hq Ha Hs Hdump Hload.
  destruct (save_context_ok (d, memory) st' _ _ _ _ Hq Ha Hs) as (Hqn & Han & Hst & _).
  cbn [fst snd] in Hst.
  assert (Hmem : st'.2 = Memory.save_context memory question answer).
  { rewrite Hst. apply atomic_save_memory. }
  rewrite Hmem in Hdump, Hload. rewrite (atomic_save_ok path _ _ text Hdump) in Hst.
  rewrite Hst. cbn [fst snd]. split; [done|]. split; [by rewrite lookup_insert_eq|].
  intros HsQ HsA. eexists.
  rewrite (init_readable path _ text _ (lookup_insert_eq _ _ _) Hload (saved_readable _)).
  do 3 f_equal. unfold Memory.save_context. rewrite saved_records_app, flat_map_app.
  f_equal. change [HumanMessage question; AIMessage answer]
    with (messages {| messages := [HumanMessage question; AIMessage answer] |}) at 1.
  unfold saved_records. apply loaded_saved_all_stable. cbn [messages forallb].
  by rewrite HsQ, HsA.
Qed.
End WriteThrough.

Lemma save_context_write_through_witness :
  messages short_talk
  = messages Memory.new ++ [HumanMessage (py "hola"); AIMessage (py "buenas, en que ayudo?")]
  /\ exists earlier,
       __init__ (rt := Reference.runtime) store
         {[ store := file_of (PList (saved_records short_talk)) ]}
       = Ok ({[ store := file_of (PList (saved_records short_talk)) ]},
             {| messages := earlier ++ [HumanMessage (py "hola");
                                        AIMessage (py "buenas, en que ayudo?")] |}).
Proof.
  destruct (save_context_write_through (rt := Reference.runtime) store ∅ Memory.new
              (turn_input (py "hola")) (turn_output (py "buenas, en que ayudo?"))
              (py "hola") (py "buenas, en que ayudo?")
              ({[ store := file_of (PList (saved_records short_talk)) ]}, short_talk)
              (file_of (PList (saved_records short_talk))))
    as (Hmem & _ & Hdisk); try (vm_compute; reflexivity).
  split; [exact Hmem|]. apply Hdisk; vm_compute; reflexivity.
Defined.

(** Claim C5, counterexample. The turn ("Q", " A") is recorded without an
    exception; a fresh instance on the same path loads the assistant
    message ["A"], not [" A"]. *)
Lemma padded_answer_not_reloaded :
  (exists d',
     save_context (rt := Reference.runtime) store (∅, Memory.new)
       (turn_input (py "Q")) (turn_output (py " A"))
     = ((d', {| messages := [HumanMessage (py "Q"); AIMessage (py " A")] |}), Ok tt)
     /\ __init__ (rt := Reference.runtime) store d'
        = Ok (d', {| messages := [HumanMessage (py "Q"); AIMessage (py "A")] |}))
  /\ ~ In (AIMessage (py " A")) [HumanMessage (py "Q"); AIMessage (py "A")].
Proof.
  split.
  - exists {[ store := file_of (PList (saved_records
                {| messages := [HumanMessage (py "Q"); AIMessage (py " A")] |})) ]}.
    split; vm_compute; reflexivity.
  - vm_compute. intros [H | [H | []]]; discriminate H.
Qed.

(** ** Contents, soft failure, interruption *)

Section Contents.
Context {rt : Runtime}.

Lemma written_content_saved m : written_content (message_to_dict m) = Some (content m).
Proof. by destruct m. Qed.

Lemma loaded_not_blank item :
  Forall (fun m => blank (content m) = false) (loaded_messages item).
Proof.
  destruct item as [| | | | | |kvs]; try by constructor.
  unfold loaded_messages. destruct (record_content kvs) as [c|]; [|by constructor].
  destruct (Py.str_eqb (Py.strip c) []) eqn:Hs; [by constructor|].
  apply str_eqb_neq, strip_not_blank in Hs.
  destruct (_ || _); [by repeat constructor|].
  destruct (_ || _); by repeat constructor.
Qed.

(** Claim C6, as amended. Every record [_atomic_save] writes has a content
    that is not empty, and for every file system the constructor returns a
    memory in which no message has an empty or white-space-only content. *)
Theorem no_empty_record_saved_no_blank_message_loaded :
  (forall memory record, In record (saved_records memory) ->
     exists c, written_content record = Some c /\ c <> [])
  /\ (forall path (d : fs), exists st,
        __init__ path d = Ok st
        /\ Forall (fun m => blank (content m) = false) (messages st.2)).
Proof.
  split.
  - intros memory record (m & <- & Hm)%in_map_iff.
    apply List.filter_In in Hm as [_ Hm]. exists (content m).
    split; [apply written_content_saved|].
    cbn [Py.truthy] in Hm. by apply negb_true_iff, str_eqb_neq in Hm.
  - intros path d.
    destruct (init_cases path d) as [H | [(items & _ & H) | (text & _ & H)]];
      rewrite H; eexists; (split; [done|]); cbn [snd messages Memory.new].
    + constructor.
    + apply Forall_flat_map, Forall_forall. intros item _. apply loaded_not_blank.
    + constructor.
Qed.
End Contents.

Lemma no_empty_record_saved_no_blank_message_loaded_witness :
  (exists c, written_content (message_to_dict (HumanMessage (py "hola"))) = Some c /\ c <> [])
  /\ exists st, __init__ (rt := Reference.runtime) store
                  {[ store := file_of (PList padded_entries) ]} = Ok st
                /\ Forall (fun m => blank (content m) = false) (messages st.2).
Proof.
  destruct (no_empty_record_saved_no_blank_message_loaded (rt := Reference.runtime))
    as [Hsave Hload].
  split.
  - apply (Hsave short_talk). vm_compute. by left.
  - apply Hload.
Defined.

(** Claim C6, counterexample. The memory holds one message whose content
    is a single space; the record array of the save holds it, and so does
    the store file. *)
Lemma blank_message_is_saved :
  In (message_to_dict (HumanMessage (py " "))) (saved_records blank_talk)
  /\ written_content (message_to_dict (HumanMessage (py " "))) = Some (py " ")
  /\ blank (py " ") = true
  /\ exists d', _atomic_save (rt := Reference.runtime) store (∅, blank_talk)
                = ((d', blank_talk), Ok tt)
                /\ d' !! store = Some (file_of (PList [message_to_dict (HumanMessage (py " "))])).
Proof.
  split; [by left|]. split; [done|]. split; [done|].
  exists {[ store := file_of (PList [message_to_dict (HumanMessage (py " "))]) ]}.
  split; vm_compute; reflexivity.
Qed.

Section FailSoft.
Context {rt : Runtime}.

(** Claim C2. The constructor never raises. Without a store file it
    returns the empty conversation and leaves the file system alone. With a
    store file that [json.load] rejects, or on which the load raises for
    another reason, it returns the empty conversation, the store file is
    gone and [path.bak] holds its bytes, whatever [path.bak] held before. *)
Theorem load_fails_soft path (d : fs) :
  (d !! path = None -> __init__ path d = Ok (d, Memory.new))
  /\ (forall text e,
        d !! path = Some text ->
        json_load text = Raise e \/ load_messages path d Memory.new = Raise e ->
        exists d', __init__ path d = Ok (d', Memory.new)
                   /\ d' = <[path +:+ ".bak" := text]> (delete path d)
                   /\ d' !! path = None
                   /\ d' !! (path +:+ ".bak") = Some text)
  /\ (exists st, __init__ path d = Ok st).
Proof.
  split; [apply init_missing|]. split.
  - intros text e Hd Hfail. eexists. split; [|split; [reflexivity|]].
    + destruct Hfail as [Hj | Hl].
      * apply (init_backup path d text e Hd).
        by apply (load_messages_invalid_json path d text).
      * by apply (init_backup path d text e Hd).
    + split; [|by rewrite lookup_insert_eq].
      rewrite lookup_insert_ne by apply backup_path_ne. by rewrite lookup_delete_eq.
  - destruct (init_cases path d) as [H | [(items & _ & H) | (text & _ & H)]];
      rewrite H; by eexists.
Qed.
End FailSoft.

Lemma load_fails_soft_witness :
  __init__ (rt := Reference.runtime) store ∅ = Ok (∅, Memory.new)
  /\ exists d', __init__ (rt := Reference.runtime) store corrupt_disk = Ok (d', Memory.new)
                /\ d' = <[store +:+ ".bak" := "{oops"]> (delete store corrupt_disk)
                /\ d' !! store = None
                /\ d' !! (store +:+ ".bak") = Some "{oops".
Proof.
  split.
  - apply (load_fails_soft (rt := Reference.runtime) store ∅). reflexivity.
  - destruct (load_fails_soft (rt := Reference.runtime) store corrupt_disk) as (_ & Hbackup & _).
    apply (Hbackup "{oops" JSONDecodeError).
    + vm_compute; reflexivity.
    + left. vm_compute; reflexivity.
Defined.

Section Atomicity.
Context {rt : Runtime}.

(** Claim C1, the failing point. When a store file exists and the save is
    cut short after [os.remove(self.path)] and before [os.rename], there is
    no store file at the path; the new text is in the temporary file only. *)
Theorem save_interrupted_after_remove path (d : fs) old text :
  d !! path = Some old ->
  interrupted_save path text d (AfterStep 3) !! path = None
  /\ interrupted_save path text d (AfterStep 3) !! temp_path path = Some text.
Proof.
  intros Hd. pose proof (temp_path_ne path) as Hne.
  unfold interrupted_save. cbn [take save_steps run_steps].
  unfold Os.open_w, Os.write, Os.path_exists, Os.remove.
  rewrite !(lookup_insert_ne _ (temp_path path) path) by done. rewrite Hd. cbn [fst].
  split; [by rewrite lookup_delete_eq|].
  rewrite lookup_delete_ne by done. by rewrite lookup_insert_eq.
Qed.
End Atomicity.

Lemma save_interrupted_after_remove_witness :
  interrupted_save store "[]" old_disk (AfterStep 3) !! store = None
  /\ interrupted_save store "[]" old_disk (AfterStep 3) !! temp_path store = Some "[]".
Proof.
  apply (save_interrupted_after_remove store old_disk
           (file_of (PList (saved_records short_talk))) "[]").
  vm_compute; reflexivity.
Defined.

(** A start after that interruption finds no store file and begins with
    an empty conversation; the conversation saved before is in no file. *)
Lemma interrupted_save_loses_history :
  __init__ (rt := Reference.runtime) store
    (interrupted_save store "[]" old_disk (AfterStep 3))
  = Ok ({[ temp_path store := "[]" ]}, Memory.new).
Proof. vm_compute; reflexivity. Qed.

(** ** Record shapes and roles *)

Section Shapes.
Context {rt : Runtime}.

Lemma loaded_flat t c :
  t = py "human" \/ t = py "ai" ->
  loaded_messages (flat_record t c) = shape_messages t c.
Proof.
  intros [-> | ->]; unfold loaded_messages, shape_messages.
  - unfold flat_record.
    change (record_content _) with (Some c). cbv beta iota.
    change (record_type _) with (PStr (py "human")).
    by destruct (Py.str_eqb (Py.strip c) []).
  - rewrite human_in_flat_ai. unfold flat_record.
    change (record_content _) with (Some c). cbv beta iota.
    change (record_type _) with (PStr (py "ai")).
    destruct (Py.str_eqb (Py.strip c) []); [done|].
    change (Py.eq_str (PStr (py "ai")) (py "human")) with false.
    change (Py.str_eqb (py "ai") (py "human")) with false.
    change (Py.eq_str (PStr (py "ai")) (py "ai")) with true.
    by destruct (Py.contains (py "HumanMessage") c).
Qed.

Lemma loaded_nested t c :
  t = py "human" \/ t = py "ai" ->
  loaded_messages (nested_record t c) = shape_messages t c.
Proof.
  intros [-> | ->]; unfold loaded_messages, shape_messages.
  - unfold nested_record.
    change (record_content _) with (Some c). cbv beta iota.
    change (record_type _) with (PStr (py "human")).
    by destruct (Py.str_eqb (Py.strip c) []).
  - rewrite human_in_nested_ai. unfold nested_record.
    change (record_content _) with (Some c). cbv beta iota.
    change (record_type _) with (PStr (py "ai")).
    destruct (Py.str_eqb (Py.strip c) []); [done|].
    change (Py.eq_str (PStr (py "ai")) (py "human")) with false.
    change (Py.str_eqb (py "ai") (py "human")) with false.
    change (Py.eq_str (PStr (py "ai")) (py "ai")) with true.
    by destruct (Py.contains (py "HumanMessage") c).
Qed.

(** Claim C8. For the tag [human] or [ai] and every text, the flat record
    and the nested record give the same messages, in the loop body and as
    the whole of a store file: none when the text strips to nothing, else
    exactly one message whose content is the stripped text and whose role
    is the one of the tag (an [ai] record whose text holds
    ["HumanMessage"] becomes a user message, in both shapes). *)
Theorem flat_record_loads_like_nested path (d_flat d_nested : fs)
    text_flat text_nested t c :
  t = py "human" \/ t = py "ai" ->
  d_flat !! path = Some text_flat ->
  json_load text_flat = Ok (PList [flat_record t c]) ->
  d_nested !! path = Some text_nested ->
  json_load text_nested = Ok (PList [nested_record t c]) ->
  (forall acc, validate_item (flat_record t c) acc = Ok (acc ++ shape_messages t c))
  /\ (forall acc, validate_item (nested_record t c) acc = Ok (acc ++ shape_messages t c))
  /\ __init__ path d_flat = Ok (d_flat, {| messages := shape_messages t c |})
  /\ __init__ path d_nested = Ok (d_nested, {| messages := shape_messages t c |})
  /\ (Py.strip c <> [] ->
      exists m, shape_messages t c = [m]
                /\ content m = Py.strip c
                /\ (t = py "human" -> m = HumanMessage (Py.strip c))
                /\ (t = py "ai" -> Py.contains (py "HumanMessage") c = false ->
                    m = AIMessage (Py.strip c)))
  /\ (Py.strip c = [] -> shape_messages t c = []).
Proof.
  intros Ht Hdf Hjf Hdn Hjn.
  split; [|split; [|split; [|split; [|split]]]].
  - intros acc. rewrite validate_item_readable by done. by rewrite loaded_flat.
  - intros acc. rewrite validate_item_readable by done. by rewrite loaded_nested.
  - rewrite (init_readable path d_flat text_flat [flat_record t c]) by done.
    cbn [flat_map]. by rewrite app_nil_r, loaded_flat.
  - rewrite (init_readable path d_nested text_nested [nested_record t c]) by done.
    cbn [flat_map]. by rewrite app_nil_r, loaded_nested.
  - intros Hs%str_eqb_neq. unfold shape_messages. rewrite Hs.
    destruct Ht as [-> | ->].
    + eexists. split; [done|]. split; [done|]. split; [done|]. intros H. by vm_compute in H.
    + change (Py.str_eqb (py "ai") (py "human")) with false. cbn [orb].
      destruct (Py.contains (py "HumanMessage") c); eexists; (split; [done|]);
        (split; [done|]); by split.
  - intros Hs%str_eqb_eq. unfold shape_messages. by rewrite Hs.
Qed.

End Shapes.

Lemma flat_record_loads_like_nested_witness :
  validate_item (rt := Reference.runtime) (flat_record (py "ai") (py " hi ")) [HumanMessage (py "q")]
  = Ok [HumanMessage (py "q"); AIMessage (py "hi")]
  /\ validate_item (rt := Reference.runtime) (nested_record (py "ai") (py " hi "))
       [HumanMessage (py "q")]
     = Ok [HumanMessage (py "q"); AIMessage (py "hi")]
  /\ __init__ (rt := Reference.runtime) store
       {[ store := file_of (PList [flat_record (py "ai") (py " hi ")]) ]}
     = Ok ({[ store := file_of (PList [flat_record (py "ai") (py " hi ")]) ]},
           {| messages := [AIMessage (py "hi")] |})
  /\ __init__ (rt := Reference.runtime) store
       {[ store := file_of (PList [nested_record (py "ai") (py " hi ")]) ]}
     = Ok ({[ store := file_of (PList [nested_record (py "ai") (py " hi ")]) ]},
           {| messages := [AIMessage (py "hi")] |}).
Proof.
  destruct (flat_record_loads_like_nested (rt := Reference.runtime) store
              {[ store := file_of (PList [flat_record (py "ai") (py " hi ")]) ]}
              {[ store := file_of (PList [nested_record (py "ai") (py " hi ")]) ]}
              (file_of (PList [flat_record (py "ai") (py " hi ")]))
              (file_of (PList [nested_record (py "ai") (py " hi ")]))
              (py "ai") (py " hi "))
    as (Hflat & Hnested & Hfile_flat & Hfile_nested & _).
  - by right.
  - vm_compute; reflexivity.
  - vm_compute; reflexivity.
  - vm_compute; reflexivity.
  - vm_compute; reflexivity.
  - split; [exact (Hflat [HumanMessage (py "q")])|].
    split; [exact (Hnested [HumanMessage (py "q")])|].
    split; [exact Hfile_flat|exact Hfile_nested].
Defined.



(** ** The history shown at start-up; the index guard *)

Section History.
Context {rt : Runtime}.
Variable binding : option (BaseMessage -> bool).

Lemma eq_str_false v c : Py.eq_str v c = false <-> v <> PStr c.
Proof.
  destruct v; simpl; try (split; [discriminate|done]).
  rewrite str_eqb_neq. split; [by intros H [= ->]|by intros H ->].
Qed.

(** One message of the memory leaves the list as it is or adds its
    content, which no entry has yet. *)
Lemma import_message_cases msg shown :
  App.import_message binding msg shown = shown
  \/ exists r, App.import_message binding msg shown
               = shown ++ [{| App.role := r; App.ui_content := PStr (content msg) |}]
               /\ content msg <> []
               /\ Forall (fun m' => App.ui_content m' <> PStr (content msg)) shown.
Proof.
  unfold App.import_message, App.isinstance_HumanMessage.
  destruct binding as [test|]; [|by left]. cbn [mbind result_bind].
  destruct (Py.truthy (PStr (content msg))) eqn:Ht; [|by left].
  destruct (existsb _ shown) eqn:He; [by left|]. right. cbn [andb negb].
  eexists. split; [done|]. split.
  - cbn [Py.truthy] in Ht. by apply negb_true_iff, str_eqb_neq in Ht.
  - apply Forall_forall. intros m' Hm'%list_elem_of_In.
    apply eq_str_false. rewrite <- not_true_iff_false. intros Heq.
    assert (existsb (fun m => Py.eq_str (App.ui_content m) (content msg)) shown = true);
      [|congruence].
    apply existsb_exists. by exists m'.
Qed.

Lemma import_memory_fresh source base :
  exists extra,
    fold_left (fun acc msg => App.import_message binding msg acc) source base = base ++ extra
    /\ added_fresh source base extra.
Proof.
  revert base. induction source as [|msg source IH]; intros base.
  - exists []. split; [by rewrite app_nil_r|]. intros before m after H. by destruct before.
  - cbn [fold_left].
    destruct (import_message_cases msg base) as [-> | (r & -> & Hne & Hfresh)].
    + destruct (IH base) as (extra & -> & Hextra). exists extra. split; [done|].
      intros before m after H. destruct (Hextra before m after H) as (c & ? & ? & ? & ?).
      exists c. repeat split; try done. by right.
    + destruct (IH (base ++ [{| App.role := r; App.ui_content := PStr (content msg) |}]))
        as (extra & -> & Hextra).
      eexists (_ :: extra). split; [by rewrite <- app_assoc|].
      intros before m after H. destruct before as [|b before].
      * injection H as <- <-. exists (content msg). cbn [App.ui_content].
        repeat split; try done; [by left|by rewrite app_nil_r].
      * injection H as <- H. destruct (Hextra before m after H) as (c & ? & ? & ? & Hall).
        exists c. repeat split; try done; [by right|].
        by rewrite <- app_assoc in Hall.
Qed.

(** A record the first loop can read adds its display entries. *)
Lemma import_record_displayable item shown :
  displayable item = true ->
  App.import_record item shown = Ok (shown ++ display_entries item).
Proof.
  destruct item as [| | | | | |kvs]; simpl; intros H; try by rewrite app_nil_r.
  unfold App.import_record, display_entries.
  destruct (Py.dict_get kvs (py "data") (PDict [])) as [| | | | | |fields]; try done.
  cbn [Py.get mbind result_bind].
  destruct (Py.truthy _); [|by rewrite app_nil_r].
  by destruct (Py.eq_str _ _).
Qed.

Lemma import_all_displayable items shown :
  forallb displayable items = true ->
  App.import_all items shown = (shown ++ flat_map display_entries items, Ok tt).
Proof.
  revert shown. induction items as [|item items IH]; intros shown; [by rewrite app_nil_r|].
  cbn [forallb App.import_all flat_map]. intros [Hi Hr]%andb_prop.
  rewrite import_record_displayable by done. rewrite IH by done. by rewrite <- app_assoc.
Qed.

Lemma import_file_displayable (d : fs) store_path items :
  (d !! store_path = None /\ items = []
   \/ exists text, d !! store_path = Some text /\ json_load text = Ok (PList items)) ->
  forallb displayable items = true ->
  App.import_file d store_path [] = (flat_map display_entries items, Ok tt).
Proof.
  intros [[Hd ->] | (text & Hd & Hj)] Hi; unfold App.import_file, Os.path_exists, Os.read;
    rewrite Hd; [done|].
  cbn [mbind result_bind]. rewrite Hj. cbn [mbind result_bind Py.iter].
  by rewrite import_all_displayable.
Qed.

(** Claim C7, as amended. Whatever [HumanMessage] is bound to in [app.py]:
    when the store file is absent ([items] is empty) or holds an array
    [items] of records the first loop can read, the history shown at
    start-up is the display entries of the records, one for each record
    with a content, in the order of the file and without any comparison
    between them, followed by entries taken from the memory; each of these
    is a text of the memory that is not empty and that no entry before it
    has as its content. *)
Theorem merged_history_adds_fresh_contents (d : fs) store_path items memory :
  (d !! store_path = None /\ items = []
   \/ exists text, d !! store_path = Some text /\ json_load text = Ok (PList items)) ->
  forallb displayable items = true ->
  exists extra,
    App.load_chat_history_from binding d store_path memory []
    = flat_map display_entries items ++ extra
    /\ added_fresh (messages memory) (flat_map display_entries items) extra.
Proof.
  intros Hfile Hitems. unfold App.load_chat_history_from.
  rewrite (import_file_displayable d store_path items Hfile Hitems).
  apply import_memory_fresh.
Qed.

(** A store file the first loop cannot read to its end (no JSON, no
    array, a record whose [data] is no object) ends the function: the
    history shown is what the file gave before, and the memory adds
    nothing. *)
Lemma unread_file_ends_the_history (d : fs) store_path memory e :
  (App.import_file d store_path []).2 = Raise e ->
  App.load_chat_history_from binding d store_path memory []
  = (App.import_file d store_path []).1.
Proof.
  unfold App.load_chat_history_from.
  by destruct (App.import_file d store_path []) as [shown [[]|e']].
Qed.
End History.

(** As [app.py] stands, the lookup of [HumanMessage] fails for every
    message of the memory, so the history shown is what the file gave. *)
Lemma app_binds_no_HumanMessage `{rt : Runtime} (d : fs) store_path memory :
  App.load_chat_history d store_path memory = (App.import_file d store_path []).1.
Proof.
  unfold App.load_chat_history, App.load_chat_history_from.
  destruct (App.import_file d store_path []) as [shown [[]|e]]; cbn [fst]; [|done].
  induction (messages memory) as [|msg l IH]; [done|]. exact IH.
Qed.

(** With [HumanMessage] imported, a message of the memory that the file
    lacks would be appended, and one the file has would not. *)
Lemma merged_history_with_import :
  App.load_chat_history_from (rt := Reference.runtime)
    (Some (fun m => match m with HumanMessage _ => true | AIMessage _ => false end))
    {[ store := file_of (PList repeated_entries) ]} store
    {| messages := [HumanMessage (py "hola"); AIMessage (py "buenas")] |} []
  = [ {| App.role := "user"; App.ui_content := PStr (py "hola") |};
      {| App.role := "user"; App.ui_content := PStr (py "hola") |};
      {| App.role := "assistant"; App.ui_content := PStr (py "buenas") |} ].
Proof. vm_compute; reflexivity. Qed.

(** Claim C7, counterexample. The store file holds the same human record
    twice and the memory is the one loaded from it; the history shown has
    two entries with the same role and the same content. *)
Lemma repeated_question_is_shown_twice :
  __init__ (rt := Reference.runtime) store {[ store := file_of (PList repeated_entries) ]}
  = Ok ({[ store := file_of (PList repeated_entries) ]}, repeated_talk)
  /\ App.load_chat_history (rt := Reference.runtime)
       {[ store := file_of (PList repeated_entries) ]} store repeated_talk
     = [ {| App.role := "user"; App.ui_content := PStr (py "hola") |};
         {| App.role := "user"; App.ui_content := PStr (py "hola") |} ]
  /\ same_entry {| App.role := "user"; App.ui_content := PStr (py "hola") |}
                {| App.role := "user"; App.ui_content := PStr (py "hola") |}.
Proof. split; [|split]; [vm_compute; reflexivity..|by split]. Qed.

(** The amended claim on a store file with a repeated record, a record
    without content and an entry that is no record, and a memory with one
    text the file has and one it lacks. *)
Lemma merged_history_adds_fresh_contents_witness :
  flat_map display_entries
    [ nested_record (py "human") (py "hola"); PInt 5; flat_record (py "ai") [];
      nested_record (py "human") (py "hola"); flat_record (py "ai") (py "buenas") ]
  = [ user_entry (py "hola"); user_entry (py "hola"); assistant_entry (py "buenas") ]
  /\ exists extra,
       App.load_chat_history_from (rt := Reference.runtime)
         (Some (fun m => match m with HumanMessage _ => true | AIMessage _ => false end))
         {[ store := file_of (PList
              [ nested_record (py "human") (py "hola"); PInt 5; flat_record (py "ai") [];
                nested_record (py "human") (py "hola"); flat_record (py "ai") (py "buenas") ]) ]}
         store {| messages := [HumanMessage (py "hola"); AIMessage (py "de nada")] |} []
       = flat_map display_entries
           [ nested_record (py "human") (py "hola"); PInt 5; flat_record (py "ai") [];
             nested_record (py "human") (py "hola"); flat_record (py "ai") (py "buenas") ]
         ++ extra
       /\ added_fresh [HumanMessage (py "hola"); AIMessage (py "de nada")]
            (flat_map display_entries
               [ nested_record (py "human") (py "hola"); PInt 5; flat_record (py "ai") [];
                 nested_record (py "human") (py "hola"); flat_record (py "ai") (py "buenas") ])
            extra.
Proof.
  split; [reflexivity|].
  apply (merged_history_adds_fresh_contents (rt := Reference.runtime)
           (Some (fun m => match m with HumanMessage _ => true | AIMessage _ => false end))
           _ store
           [ nested_record (py "human") (py "hola"); PInt 5; flat_record (py "ai") [];
             nested_record (py "human") (py "hola"); flat_record (py "ai") (py "buenas") ]
           {| messages := [HumanMessage (py "hola"); AIMessage (py "de nada")] |}).
  - right.
    exists (file_of (PList
              [ nested_record (py "human") (py "hola"); PInt 5; flat_record (py "ai") [];
                nested_record (py "human") (py "hola"); flat_record (py "ai") (py "buenas") ])).
    split; vm_compute; reflexivity.
  - reflexivity.
Defined.

Section Index.
Variables (Chroma Document : Type).
Variable chroma_bool : Chroma -> bool.
Variable similarity_search : Chroma -> pystr -> nat -> list Document + string.
Variable build_index : string -> Chroma * nat + string.

Local Abbreviation query := (RAGSystem.query Chroma Document chroma_bool similarity_search).
Local Abbreviation process_pdf := (RAGSystem.process_pdf Chroma build_index).

End Index.



(* ===================================================================== *)
(** * Part II, continued: the other functions *)
(* ===================================================================== *)

(** ** More of [src/memory.py] *)

Section MemoryMore.
Context {rt : Runtime}.
Variable path : string.

Lemma clear_disk (st : state) : (clear path st).1 = delete path st.1.
Proof.
  unfold clear, Os.path_exists, Os.remove. cbn [fst].
  destruct (st.1 !! path) eqn:Hd; [done|]. symmetry. by apply delete_id.
Qed.

(** Property X1. After [clear] the store file is gone, every other file is as it
    was, the memory is empty, and a fresh instance on the same path starts
    with the empty conversation. *)
Theorem clear_removes_store_and_memory (st : state) :
  (clear path st).1 = delete path st.1
  /\ messages (clear path st).2 = []
  /\ __init__ path (clear path st).1 = Ok ((clear path st).1, Memory.new).
Proof.
  split; [apply clear_disk|]. split; [done|].
  apply init_missing. rewrite clear_disk. apply lookup_delete_eq.
Qed.

(** Property X2. [clear] twice is [clear] once, on the files and on the memory. *)
Theorem clear_is_idempotent (st : state) :
  clear path (clear path st) = clear path st.
Proof.
  apply injective_projections.
  - rewrite !clear_disk. apply delete_delete_eq.
  - done.
Qed.

(** What [_atomic_save] leaves, whether [json.dump] raised or not. *)
Lemma atomic_save_cases (d : fs) memory :
  (exists text, json_dump (PList (saved_records memory)) = Ok text
     /\ _atomic_save path (d, memory)
        = ((<[path := text]> (delete (temp_path path) d), memory), Ok tt))
  \/ (exists e, json_dump (PList (saved_records memory)) = Raise e
        /\ _atomic_save path (d, memory) = ((delete (temp_path path) d, memory), Raise e)).
Proof.
  destruct (json_dump (PList (saved_records memory))) as [text|e] eqn:Hj.
  - left. exists text. split; [done|]. by apply atomic_save_ok.
  - right. exists e. split; [done|]. by apply atomic_save_raises.
Qed.

(** Property X3. Whatever its outcome, [_atomic_save] leaves the memory as it was,
    leaves no temporary file and changes no file but the store file and the
    temporary file; when it returns, the store file holds the text
    [json.dump] wrote, and when it raises (then [json.dump] raised), the
    store file is as it was. *)
Theorem atomic_save_touches_store_and_temp_only (d : fs) memory st' outcome :
  _atomic_save path (d, memory) = (st', outcome) ->
  st'.2 = memory
  /\ st'.1 !! temp_path path = None
  /\ (forall p, p <> path -> p <> temp_path path -> st'.1 !! p = d !! p)
  /\ match outcome with
     | Ok _ => exists text, json_dump (PList (saved_records memory)) = Ok text
                            /\ st'.1 !! path = Some text
     | Raise e => json_dump (PList (saved_records memory)) = Raise e
                  /\ st'.1 !! path = d !! path
     end.
Proof.
  pose proof (temp_path_ne path) as Hne.
  destruct (atomic_save_cases d memory) as [(text & Hj & ->) | (e & Hj & ->)];
    intros [= <- <-]; cbn [fst snd].
  - split; [done|]. split.
    + rewrite lookup_insert_ne by done. apply lookup_delete_eq.
    + split.
      * intros p Hp Hp'. rewrite lookup_insert_ne by done. by rewrite lookup_delete_ne.
      * exists text. split; [done|]. apply lookup_insert_eq.
  - split; [done|]. split; [apply lookup_delete_eq|]. split.
    + intros p _ Hp'. by rewrite lookup_delete_ne.
    + split; [done|]. by rewrite lookup_delete_ne.
Qed.

(** Property X4. Saving again right after a save changes nothing and has the same
    outcome. *)
Theorem atomic_save_is_idempotent (st : state) :
  _atomic_save path (_atomic_save path st).1 = _atomic_save path st.
Proof.
  destruct st as [d memory].
  destruct (atomic_save_cases d memory) as [(text & Hj & E) | (e & Hj & E)];
    rewrite E; cbn [fst].
  - rewrite (atomic_save_ok path _ memory text Hj). do 2 f_equal.
    apply map_eq. intros p.
    destruct (decide (p = path)) as [->|Hp]; [by rewrite !lookup_insert_eq|].
    rewrite !lookup_insert_ne by done.
    destruct (decide (p = temp_path path)) as [->|Hp']; [by rewrite !lookup_delete_eq|].
    rewrite !lookup_delete_ne by done. rewrite lookup_insert_ne by done.
    by rewrite lookup_delete_ne.
  - rewrite (atomic_save_raises path _ memory e Hj). by rewrite delete_delete_eq.
Qed.

(** Property X5. When [save_context] raises, the store file is as it was and the
    file system is unchanged but for a removed temporary file; the memory is
    unchanged, or it already ends with the turn (the failure came from the
    save). *)
Theorem save_context_failure_keeps_store (d : fs) memory input_data output_data st' e :
  save_context path (d, memory) input_data output_data = (st', Raise e) ->
  st'.1 !! path = d !! path
  /\ (st'.1 = d \/ st'.1 = delete (temp_path path) d)
  /\ (st'.2 = memory
      \/ exists question answer,
           input_data !! py "input" = Some question
           /\ output_data !! py "output" = Some answer
           /\ messages st'.2 = messages memory ++ [HumanMessage question; AIMessage answer]).
Proof.
  pose proof (temp_path_ne path) as Hne.
  unfold save_context.
  destruct (input_data !! py "input") as [question|] eqn:Hq;
    [|intros [= <- _]; by auto].
  destruct (output_data !! py "output") as [answer|] eqn:Ha;
    [|intros [= <- _]; by auto].
  destruct (_ || _); [intros [= <- _]; by auto|]. cbn [fst snd].
  destruct (atomic_save_cases d (Memory.save_context memory question answer))
    as [(text & Hj & ->) | (e' & Hj & ->)]; [done|].
  intros [= <- _]. cbn [fst snd]. split; [by rewrite lookup_delete_ne|].
  split; [by right|]. right. by exists question, answer.
Qed.
End MemoryMore.

(** ** More on loading *)

Section LoadMore.
Context {rt : Runtime}.
Variable path : string.

(** The constructor, case by case. *)
Lemma init_unfold (d : fs) :
  __init__ path d
  = match d !! path with
    | None => Ok (d, Memory.new)
    | Some text =>
        match load_messages path d Memory.new with
        | Ok memory => Ok (d, memory)
        | Raise _ => Ok (<[path +:+ ".bak" := text]> (delete path d), Memory.new)
        end
    end.
Proof.
  destruct (d !! path) as [text|] eqn:Hd; [|by apply init_missing].
  destruct (load_messages path d Memory.new) as [memory|e] eqn:Hl.
  - by apply (init_loaded path d text).
  - by apply (init_backup path d text e).
Qed.

Lemma load_messages_store_only (d1 d2 : fs) memory :
  d1 !! path = d2 !! path ->
  load_messages path d1 memory = load_messages path d2 memory.
Proof. intros H. unfold load_messages, Os.read. by rewrite H. Qed.

Lemma init_moved_aside (d : fs) text :
  (<[path +:+ ".bak" := text]> (delete path d) : fs) !! path = None.
Proof. rewrite lookup_insert_ne by apply backup_path_ne. apply lookup_delete_eq. Qed.

(** Property X6. A second fresh instance on the file system the first one left
    loads the same conversation and leaves the same file system. *)
Theorem second_load_gives_the_same (d : fs) st :
  __init__ path d = Ok st -> __init__ path st.1 = Ok st.
Proof.
  rewrite init_unfold. destruct (d !! path) as [text|] eqn:Hd.
  - destruct (load_messages path d Memory.new) as [memory|e] eqn:Hl; intros [= <-]; cbn [fst].
    + by rewrite init_unfold, Hd, Hl.
    + by rewrite init_unfold, init_moved_aside.
  - intros [= <-]. cbn [fst]. by rewrite init_unfold, Hd.
Qed.

(** Property X7. The conversation a fresh instance loads depends on the store file
    alone: two file systems with the same store file give the same memory. *)
Theorem load_reads_the_store_only (d1 d2 : fs) st1 :
  d1 !! path = d2 !! path ->
  __init__ path d1 = Ok st1 ->
  exists d2', __init__ path d2 = Ok (d2', st1.2).
Proof.
  intros H. rewrite !init_unfold, <- H, (load_messages_store_only d1 d2 _ H).
  destruct (d1 !! path) as [text|].
  - destruct (load_messages path d2 Memory.new) as [memory|e]; intros [= <-]; by eexists.
  - intros [= <-]. by eexists.
Qed.

(** Property X8. The constructor leaves the file system as it is, or moves the store
    file to [path.bak] and returns the empty conversation; it leaves the
    files alone whenever it returns messages, and it never touches a file
    other than these two. *)
Theorem load_moves_or_leaves (d : fs) st :
  __init__ path d = Ok st ->
  (st.1 = d
   \/ exists text, d !! path = Some text
                   /\ st.1 = <[path +:+ ".bak" := text]> (delete path d)
                   /\ st.2 = Memory.new)
  /\ (messages st.2 <> [] -> st.1 = d)
  /\ (forall p, p <> path -> p <> path +:+ ".bak" -> st.1 !! p = d !! p).
Proof.
  rewrite init_unfold. destruct (d !! path) as [text|] eqn:Hd.
  - destruct (load_messages path d Memory.new) as [memory|e] eqn:Hl; intros [= <-]; cbn [fst snd].
    + by auto.
    + split; [right; by exists text|]. split; [done|].
      intros p Hp Hb. rewrite lookup_insert_ne by done. by rewrite lookup_delete_ne.
  - intros [= <-]. by auto.
Qed.

(** Property X9. A store file that holds valid JSON which is no array, or an array
    with one record whose [data] is no object or whose content is no text, is
    moved to [path.bak] and the conversation is empty: the valid records of
    such an array are not loaded. *)
Theorem malformed_array_is_moved_aside (d : fs) text data :
  d !! path = Some text ->
  json_load text = Ok data ->
  match data with
  | PList items => forallb readable items = false
  | _ => True
  end ->
  __init__ path d = Ok (<[path +:+ ".bak" := text]> (delete path d), Memory.new).
Proof.
  intros Hd Hj Hbad. rewrite init_unfold, Hd.
  assert (exists e, load_messages path d Memory.new = Raise e) as [e ->]; [|done].
  unfold load_messages, Os.read. rewrite Hd. cbn [mbind result_bind].
  rewrite Hj. cbn [mbind result_bind].
  destruct data as [| | | | |items|]; try by eexists.
  cbn [mbind result_bind]. destruct (for_each_unreadable items [] Hbad) as [e ->].
  by eexists.
Qed.

(** Property X11. After a save cut short while the temporary file is written, or at
    any point before [os.remove], a fresh instance loads the conversation it
    would have loaded before the save. *)
Theorem early_interruption_loses_nothing (d : fs) text i st :
  match i with
  | AfterStep k => k <= 2
  | WhileWriting _ => True
  end ->
  __init__ path d = Ok st ->
  exists d', __init__ path (interrupted_save path text d i) = Ok (d', st.2).
Proof.
  intros Hi Hinit.
  assert (Hsame : interrupted_save path text d i !! path = d !! path).
  { pose proof (temp_path_ne path) as Hne.
    destruct i as [k|n].
    - destruct k as [|[|[|k]]]; [..|lia]; unfold interrupted_save;
        cbn [take save_steps run_steps fst]; unfold Os.open_w, Os.write;
        by rewrite ?lookup_insert_ne.
    - unfold interrupted_save, Os.open_w, Os.write. by rewrite !lookup_insert_ne. }
  revert Hinit. rewrite !init_unfold, Hsame.
  rewrite (load_messages_store_only _ d _ Hsame).
  destruct (d !! path) as [old|].
  - destruct (load_messages path d Memory.new) as [memory|e]; intros [= <-]; by eexists.
  - intros [= <-]. by eexists.
Qed.

(** ** [_validate_messages] *)

Lemma validate_raw_saved m acc : validate_raw (message_to_dict m) acc = Ok acc.
Proof. by destruct m. Qed.

(** Property X12. [_validate_messages] reads the flat [content] only: on the record
    array [_atomic_save] writes, which has the content under [data], it
    returns no message. *)
Theorem validator_keeps_nothing_of_a_saved_file memory :
  _validate_messages (saved_records memory) = Ok [].
Proof.
  unfold _validate_messages, saved_records.
  induction (List.filter _ (messages memory)) as [|m l IH]; [done|].
  cbn [List.map for_each]. rewrite validate_raw_saved. exact IH.
Qed.

Lemma dict_get_absent kvs key default :
  forallb (fun kv => negb (Py.str_eqb kv.1 key)) kvs = true ->
  Py.dict_get kvs key default = default.
Proof.
  induction kvs as [|[k v] kvs IH]; [done|]. cbn [forallb Py.dict_get fst].
  intros [Hk Hr]%andb_prop. apply negb_true_iff in Hk. rewrite Hk. by apply IH.
Qed.

Lemma type_default_irrelevant kvs t :
  t <> [] ->
  Py.eq_str (Py.dict_get kvs (py "type") (PStr [])) t
  = Py.eq_str (Py.dict_get kvs (py "type") PNone) t.
Proof.
  intros Ht. induction kvs as [|[k v] kvs IH].
  - simpl. by apply str_eqb_neq.
  - cbn [Py.dict_get]. by destruct (Py.str_eqb k (py "type")).
Qed.

Lemma validate_raw_agrees item acc :
  has_no_data item = true -> names_no_class item = true ->
  validate_item item acc = validate_raw item acc.
Proof.
  destruct item as [| | | | | |kvs]; try done.
  unfold has_no_data, names_no_class. intros Hd [Hh Ha]%andb_prop.
  apply negb_true_iff in Hh, Ha.
  unfold validate_item, validate_raw. rewrite Hh, Ha, !orb_false_r.
  rewrite (dict_get_absent kvs (py "data") _ Hd). cbn [Py.get Py.dict_get mbind result_bind].
  destruct (Py.strip_method _) as [c|]; [|done]. cbn [mbind result_bind].
  destruct (negb _); [done|].
  by rewrite !type_default_irrelevant.
Qed.

(** Property X13. On records without a [data] field whose rendering holds neither
    class name, [_validate_messages] and the loop of [_verify_and_load]
    give the same result, messages or exception. *)
Theorem validator_agrees_with_loader_on_flat_records items :
  forallb has_no_data items = true ->
  forallb names_no_class items = true ->
  _validate_messages items = for_each validate_item items [].
Proof.
  unfold _validate_messages. generalize (@nil BaseMessage).
  induction items as [|item items IH]; intros acc; [done|].
  cbn [forallb for_each]. intros [Hd Hds]%andb_prop [Hn Hns]%andb_prop.
  rewrite validate_raw_agrees by done.
  destruct (validate_raw item acc); [|done]. cbn [mbind result_bind]. by apply IH.
Qed.
Lemma validate_raw_not_blank item acc acc' :
  validate_raw item acc = Ok acc' ->
  Forall (fun m => blank (content m) = false) acc ->
  Forall (fun m => blank (content m) = false) acc'.
Proof.
  destruct item as [| | | | | |kvs]; try by intros [= <-].
  unfold validate_raw.
  destruct (Py.dict_get kvs (py "content") (PStr [])) as [| | | |c| |]; try done.
  cbn [Py.strip_method mbind result_bind Py.truthy]. rewrite negb_involutive.
  destruct (Py.str_eqb (Py.strip c) []) eqn:Hs; [by intros [= <-]|].
  apply str_eqb_neq, strip_not_blank in Hs.
  destruct (Py.eq_str _ (py "human")).
  { intros [= <-] Hacc. apply Forall_app. split; [done|]. by repeat constructor. }
  destruct (Py.eq_str _ (py "ai")); [|by intros [= <-]].
  intros [= <-] Hacc. apply Forall_app. split; [done|]. by repeat constructor.
Qed.

(** Property X14. No message [_validate_messages] returns has an empty or
    white-space-only content. *)
Theorem validator_yields_no_blank_message raw_messages validated :
  _validate_messages raw_messages = Ok validated ->
  Forall (fun m => blank (content m) = false) validated.
Proof.
  unfold _validate_messages.
  assert (Hgen : forall acc,
            Forall (fun m => blank (content m) = false) acc ->
            for_each validate_raw raw_messages acc = Ok validated ->
            Forall (fun m => blank (content m) = false) validated).
  { induction raw_messages as [|item items IH]; intros acc Hacc.
    - by intros [= <-].
    - cbn [for_each]. destruct (validate_raw item acc) as [acc'|] eqn:Hv; [|done].
      cbn [mbind result_bind]. apply IH. by apply (validate_raw_not_blank item acc). }
  apply Hgen. constructor.
Qed.
End LoadMore.

(** ** The history shown *)

Section Shown.
Context {rt : Runtime}.

Lemma import_record_saved m shown :
  Py.truthy (PStr (content m)) = true ->
  App.import_record (message_to_dict m) shown = Ok (shown ++ [entry_of m]).
Proof.
  intros Ht. destruct m as [c|c]; unfold App.import_record, message_to_dict;
    cbn [content type] in *.
  - change (Py.dict_get _ (py "data") (PDict [])) with
      (PDict ([(py "content", PStr c); (py "additional_kwargs", PDict []);
               (py "response_metadata", PDict []); (py "type", PStr (py "human"));
               (py "name", PNone); (py "id", PNone); (py "example", PBool false)] ++ [])).
    cbn [Py.get app]. change (Py.dict_get _ (py "content") _) with (PStr c) at 1.
    cbn [mbind result_bind]. rewrite Ht.
    change (Py.eq_str _ (py "human")) with true. done.
  - change (Py.dict_get _ (py "data") (PDict [])) with
      (PDict ([(py "content", PStr c); (py "additional_kwargs", PDict []);
               (py "response_metadata", PDict []); (py "type", PStr (py "ai"));
               (py "name", PNone); (py "id", PNone); (py "example", PBool false)]
              ++ [(py "tool_calls", PList []); (py "invalid_tool_calls", PList []);
                  (py "usage_metadata", PNone)])).
    cbn [Py.get app]. change (Py.dict_get _ (py "content") _) with (PStr c) at 1.
    cbn [mbind result_bind]. rewrite Ht.
    change (Py.eq_str _ (py "human")) with false. done.
Qed.

Lemma import_all_saved l shown :
  forallb (fun m => Py.truthy (PStr (content m))) l = true ->
  App.import_all (List.map message_to_dict l) shown = (shown ++ List.map entry_of l, Ok tt).
Proof.
  revert shown. induction l as [|m l IH]; intros shown; [by rewrite app_nil_r|].
  cbn [forallb List.map App.import_all]. intros [Hm Hl]%andb_prop.
  rewrite import_record_saved by done. rewrite IH by done. by rewrite <- app_assoc.
Qed.

Lemma kept_truthy memory :
  forallb (fun m => Py.truthy (PStr (content m))) (kept memory) = true.
Proof.
  apply forallb_forall. intros m Hm. unfold kept in Hm.
  by apply List.filter_In in Hm as [_ Hm].
Qed.

Lemma import_file_array (d : fs) store text items shown :
  d !! store = Some text -> json_load text = Ok (PList items) ->
  App.import_file d store shown = App.import_all items shown.
Proof.
  intros Hd Hj. unfold App.import_file, Os.path_exists, Os.read. rewrite Hd.
  cbn [mbind result_bind]. rewrite Hj. done.
Qed.

Lemma import_file_missing (d : fs) store shown :
  d !! store = None -> App.import_file d store shown = (shown, Ok tt).
Proof. intros Hd. unfold App.import_file, Os.path_exists. by rewrite Hd. Qed.

(** Property X15. When the store file is what a save wrote, [load_chat_history] shows
    exactly the messages saved, in order, each with its role and with its
    content as written (the display is not stripped), whatever the memory
    holds. *)
Theorem saved_history_is_shown_as_written (d : fs) store saved text memory :
  d !! store = Some text ->
  json_load text = Ok (PList (saved_records saved)) ->
  App.load_chat_history d store memory = List.map entry_of (kept saved).
Proof.
  intros Hd Hj. rewrite app_binds_no_HumanMessage.
  rewrite (import_file_array d store text _ [] Hd Hj).
  unfold saved_records. fold (kept saved). by rewrite import_all_saved by apply kept_truthy.
Qed.

(** Property X16. As [app.py] stands, the history [load_chat_history] shows does not
    depend on the memory: the lookup of [HumanMessage] at line 82 fails for
    each of its messages. *)
Theorem memory_has_no_part_in_the_history_shown (d : fs) store memory memory' :
  App.load_chat_history d store memory = App.load_chat_history d store memory'.
Proof. by rewrite !app_binds_no_HumanMessage. Qed.
End Shown.

(** ** The backup file *)

Section Backup.
Context {rt : Runtime}.
Variable json_dump_ascii : pyval -> bytes.

Local Abbreviation backup := (Session.backup_message_to_json json_dump_ascii).

(** The backup writes its own file only. *)
Lemma backup_frame (d : fs) q a tq ta p :
  p <> Session.backup_file -> backup d q a tq ta !! p = d !! p.
Proof.
  intros Hp. unfold Session.backup_message_to_json.
  destruct (if Os.path_exists d Session.backup_file then _ else _) as [[| | | | |l|]|]; try done.
  unfold Os.write, Os.open_w. by rewrite !lookup_insert_ne.
Qed.

Lemma backup_written (d : fs) earlier q a tq ta :
  (d !! Session.backup_file = None /\ earlier = []
   \/ exists text, d !! Session.backup_file = Some text
                   /\ json_load text = Ok (PList earlier)) ->
  backup d q a tq ta !! Session.backup_file
  = Some (json_dump_ascii (PList (earlier ++ backup_turn q a tq ta))).
Proof.
  intros H. unfold Session.backup_message_to_json, Os.path_exists, Os.read.
  destruct H as [[Hd ->] | (text & Hd & Hj)]; rewrite Hd.
  - unfold Os.write, Os.open_w. by rewrite lookup_insert_eq.
  - cbn [mbind result_bind]. rewrite Hj. unfold Os.write, Os.open_w.
    by rewrite lookup_insert_eq.
Qed.

(** Property X17. With no backup file, or one that holds an array, the backup file
    afterwards holds the earlier entries followed by the human and the ai
    entry of the turn, and no other file changes. *)
Theorem backup_appends_the_turn (d : fs) earlier q a tq ta :
  (d !! Session.backup_file = None /\ earlier = []
   \/ exists text, d !! Session.backup_file = Some text
                   /\ json_load text = Ok (PList earlier)) ->
  backup d q a tq ta !! Session.backup_file
  = Some (json_dump_ascii (PList (earlier ++ backup_turn q a tq ta)))
  /\ forall p, p <> Session.backup_file -> backup d q a tq ta !! p = d !! p.
Proof.
  intros H. split; [by apply backup_written|intros p; apply backup_frame].
Qed.

(** Property X18. Two turns backed up one after the other, starting without a backup
    file, give a file with the four entries in the order of the turns, when
    [json.load] reads back what the first backup wrote. *)
Theorem two_backups_keep_the_order (d : fs) q1 a1 t1 t1' q2 a2 t2 t2' :
  d !! Session.backup_file = None ->
  json_load (json_dump_ascii (PList (backup_turn q1 a1 t1 t1')))
  = Ok (PList (backup_turn q1 a1 t1 t1')) ->
  backup (backup d q1 a1 t1 t1') q2 a2 t2 t2' !! Session.backup_file
  = Some (json_dump_ascii (PList (backup_turn q1 a1 t1 t1' ++ backup_turn q2 a2 t2 t2'))).
Proof.
  intros Hd Hj. apply backup_written. right. eexists. split; [|exact Hj].
  rewrite (backup_written d []); [done|by left].
Qed.

(** Property X19. When the backup file is no JSON, or JSON that is no array,
    [backup_message_to_json] changes nothing: the turn is not backed up and
    no exception reaches the caller. *)
Theorem unreadable_backup_is_left_alone (d : fs) text q a tq ta :
  d !! Session.backup_file = Some text ->
  match json_load text with
  | Ok (PList _) => False
  | _ => True
  end ->
  backup d q a tq ta = d.
Proof.
  intros Hd Hbad. unfold Session.backup_message_to_json, Os.path_exists, Os.read.
  rewrite Hd. cbn [mbind result_bind].
  by destruct (json_load text) as [[| | | | |l|]|].
Qed.
End Backup.

(** ** A backup file as a store file *)

Section Restore.
Context {rt : Runtime}.
Variable path : string.

Lemma str_backup_ai a ta :
  Py.str isprintable (Session.backup_entry (py "ai") a ta)
  = py "{'type': 'ai', 'content': " ++ Py.repr_str isprintable a
    ++ py ", 'timestamp': " ++ Py.repr_str isprintable ta ++ py "}".
Proof.
  unfold Py.str, Session.backup_entry.
  cbn [Py.repr List.map Py.join fst snd app].
  generalize (Py.repr_str isprintable a) (Py.repr_str isprintable ta). intros ra rta.
  cbv -[app]. repeat (progress (cbn [app]; rewrite <- ?app_assoc)). reflexivity.
Qed.

Lemma human_in_backup_ai a ta :
  Py.contains (py "HumanMessage") (Py.str isprintable (Session.backup_entry (py "ai") a ta))
  = Py.contains (py "HumanMessage") a || Py.contains (py "HumanMessage") ta.
Proof.
  rewrite str_backup_ai, (contains_around isprintable) by done.
  rewrite (contains_around isprintable) by done.
  cbn [orb]. by rewrite orb_false_r.
Qed.

Lemma loaded_backup_turn t :
  unambiguous t = true ->
  flat_map loaded_messages
    (backup_turn (question t) (answer t) (asked_at t) (answered_at t))
  = restored t.
Proof.
  intros [Ha Hta]%andb_prop. apply negb_true_iff in Ha, Hta.
  unfold backup_turn, restored. cbn [flat_map]. rewrite app_nil_r.
  assert (Hq : loaded_messages (Session.backup_entry (py "human") (question t) (asked_at t))
               = if Py.str_eqb (Py.strip (question t)) [] then []
                 else [HumanMessage (Py.strip (question t))]).
  { unfold loaded_messages, Session.backup_entry. cbv beta iota.
    change (record_content _) with (Some (question t)). cbv beta iota.
    change (record_type _) with (PStr (py "human")).
    by destruct (Py.str_eqb _ []). }
  rewrite Hq. f_equal.
  unfold loaded_messages. rewrite human_in_backup_ai, Ha, Hta.
  unfold Session.backup_entry. cbv beta iota.
  change (record_content _) with (Some (answer t)). cbv beta iota.
  change (record_type _) with (PStr (py "ai")).
  by destruct (Py.str_eqb _ []).
Qed.

Lemma backup_array_readable turns : forallb readable (backup_array turns) = true.
Proof. induction turns as [|t turns IH]; [done|]. exact IH. Qed.

Lemma loaded_backup_array turns :
  forallb unambiguous turns = true ->
  flat_map loaded_messages (backup_array turns) = flat_map restored turns.
Proof.
  induction turns as [|t turns IH]; [done|].
  cbn [forallb]. intros [Ht Hu]%andb_prop.
  unfold backup_array. cbn [flat_map]. rewrite flat_map_app.
  rewrite loaded_backup_turn by done. f_equal. by apply IH.
Qed.

(** Property X20. A store file that holds the entries of a backup file loads as the
    conversation of its turns, each text stripped and texts that strip to
    nothing left out, when no answer and no timestamp of an answer holds the
    text ["HumanMessage"]. *)
Theorem backup_file_restores_the_conversation (d : fs) text turns :
  d !! path = Some text ->
  json_load text = Ok (PList (backup_array turns)) ->
  forallb unambiguous turns = true ->
  __init__ path d = Ok (d, {| messages := flat_map restored turns |}).
Proof.
  intros Hd Hj Hu.
  rewrite (init_readable path d text _ Hd Hj (backup_array_readable turns)).
  by rewrite loaded_backup_array.
Qed.
End Restore.

(** ** A question in [main] *)

Section Turns.
Context {rt : Runtime}.
Variables (Chroma Document : Type).
Variable chroma_bool : Chroma -> bool.
Variable similarity_search : Chroma -> pystr -> nat -> list Document + string.
Variable json_dump_ascii : pyval -> bytes.
Variable rag_startup : result unit.
Variable complete : pystr -> list Document -> list BaseMessage -> result pystr.
Variable markdown : pystr -> result unit.
Variable path : string.

Local Abbreviation session := (Session.session Chroma).
Local Abbreviation handle_prompt :=
  (Session.handle_prompt Chroma Document chroma_bool similarity_search
     json_dump_ascii complete markdown path).
Local Abbreviation query :=
  (RAGSystem.query Chroma Document chroma_bool similarity_search).
Local Abbreviation initialize_session_state :=
  (Session.initialize_session_state Chroma rag_startup path).
Local Abbreviation clear_memory_button := (Session.clear_memory_button Chroma path).
Local Abbreviation backup := (Session.backup_message_to_json json_dump_ascii).

(** A question whose answer reached the page: what remains is
    [record_turn]. *)
Lemma handle_prompt_answered (d : fs) (s : session) prompt docs response now_user now_ai :
  prompt <> [] ->
  markdown prompt = Ok tt ->
  query (Session.rag Chroma s) prompt 3 = Ok docs ->
  complete prompt docs (messages (Session.memory Chroma s)) = Ok response ->
  markdown response = Ok tt ->
  handle_prompt d s prompt now_user now_ai
  = Session.record_turn Chroma json_dump_ascii path d s prompt response now_user now_ai.
Proof.
  intros Hp%str_eqb_neq Hmp Hq Hc Hmr. unfold Session.handle_prompt. cbn [Py.truthy].
  rewrite Hp. cbn [negb]. rewrite Hmp. cbn [mbind result_bind]. rewrite Hq.
  cbn [mbind result_bind]. unfold load_memory_variables. cbn [try_except]. rewrite Hc.
  cbn [mbind result_bind]. rewrite Hmr. done.
Qed.

(** A question or an answer the page refuses ends the [try] before
    anything is recorded. *)
Lemma handle_prompt_unshown (d : fs) (s : session) prompt now_user now_ai :
  (exists e, markdown prompt = Raise e)
  \/ (exists docs response e,
        query (Session.rag Chroma s) prompt 3 = Ok docs
        /\ complete prompt docs (messages (Session.memory Chroma s)) = Ok response
        /\ markdown response = Raise e) ->
  handle_prompt d s prompt now_user now_ai = (d, s).
Proof.
  unfold Session.handle_prompt. destruct (negb _); [done|].
  unfold load_memory_variables. cbn [try_except].
  intros [(e & ->) | (docs & response & e & Hq & Hc & Hm)]; [done|].
  destruct (markdown prompt) as [[]|e0]; cbn [mbind result_bind]; [|done].
  rewrite Hq. cbn [mbind result_bind]. rewrite Hc. cbn [mbind result_bind]. by rewrite Hm.
Qed.

(** Property X21. When the retrieval raises (no document indexed, or a
    failure of the index), the completion raises, or the page refuses the
    question or the answer, the question changes neither the files, nor
    the memory, nor the display list. *)
Theorem failed_turn_changes_nothing (d : fs) (s : session) prompt now_user now_ai :
  (exists e, query (Session.rag Chroma s) prompt 3 = Raise e)
  \/ (exists docs e,
        query (Session.rag Chroma s) prompt 3 = Ok docs
        /\ complete prompt docs (messages (Session.memory Chroma s)) = Raise e)
  \/ (exists e, markdown prompt = Raise e)
  \/ (exists docs response e,
        query (Session.rag Chroma s) prompt 3 = Ok docs
        /\ complete prompt docs (messages (Session.memory Chroma s)) = Ok response
        /\ markdown response = Raise e) ->
  handle_prompt d s prompt now_user now_ai = (d, s).
Proof.
  intros [(e & Hq) | [(docs & e & Hq & Hc) | H]]; [| |by apply handle_prompt_unshown].
  - unfold Session.handle_prompt. destruct (negb _); [done|].
    destruct (markdown prompt) as [[]|e0]; cbn [mbind result_bind]; [|done].
    by rewrite Hq.
  - unfold Session.handle_prompt. destruct (negb _); [done|].
    unfold load_memory_variables. cbn [try_except].
    destruct (markdown prompt) as [[]|e0]; cbn [mbind result_bind]; [|done].
    rewrite Hq. cbn [mbind result_bind]. by rewrite Hc.
Qed.

(** Property X22. When the service answers with the empty text, the
    question and the empty answer are added to the display list, and
    neither the memory nor any file changes; this when the page shows both
    texts, and nothing at all changes when it refuses one. *)
Theorem empty_answer_is_shown_but_not_saved (d : fs) (s : session) prompt docs
    now_user now_ai :
  prompt <> [] ->
  query (Session.rag Chroma s) prompt 3 = Ok docs ->
  complete prompt docs (messages (Session.memory Chroma s)) = Ok [] ->
  handle_prompt d s prompt now_user now_ai
  = match markdown prompt, markdown [] with
    | Ok _, Ok _ =>
        (d, {| Session.rag := Session.rag Chroma s;
               Session.memory := Session.memory Chroma s;
               Session.shown := Session.shown Chroma s
                                ++ [user_entry prompt; assistant_entry []] |})
    | _, _ => (d, s)
    end.
Proof.
  intros Hp Hq Hc.
  destruct (markdown prompt) as [[]|e1] eqn:Hmp;
    [|apply handle_prompt_unshown; left; by exists e1].
  destruct (markdown []) as [[]|e2] eqn:Hmr;
    [|apply handle_prompt_unshown; right; by exists docs, [], e2].
  rewrite (handle_prompt_answered d s prompt docs []) by done.
  unfold Session.record_turn, save_context. rewrite !lookup_singleton_eq. cbn [Py.truthy].
  apply str_eqb_neq in Hp. rewrite Hp. done.
Qed.

(** Property X23. When retrieval and completion succeed with an answer that
    is not empty and [json.dump] succeeds, the memory and the display list
    end with the turn, the index is unchanged, and the file system is the
    saved store followed by the backup; the backup leaves the store file
    with the text written. This when the page shows question and answer;
    when it refuses one, nothing changes. *)
Theorem completed_turn_is_recorded (d : fs) (s : session) prompt docs response
    now_user now_ai text :
  prompt <> [] -> response <> [] ->
  query (Session.rag Chroma s) prompt 3 = Ok docs ->
  complete prompt docs (messages (Session.memory Chroma s)) = Ok response ->
  json_dump (PList (saved_records
     (Memory.save_context (Session.memory Chroma s) prompt response))) = Ok text ->
  path <> Session.backup_file ->
  let result := handle_prompt d s prompt now_user now_ai in
  match markdown prompt, markdown response with
  | Ok _, Ok _ =>
      messages (Session.memory Chroma result.2)
      = messages (Session.memory Chroma s) ++ [HumanMessage prompt; AIMessage response]
      /\ Session.shown Chroma result.2
         = Session.shown Chroma s ++ [user_entry prompt; assistant_entry response]
      /\ Session.rag Chroma result.2 = Session.rag Chroma s
      /\ result.1 !! path = Some text
      /\ result.1
         = backup (<[path := text]> (delete (temp_path path) d))
             prompt response now_user now_ai
  | _, _ => result = (d, s)
  end.
Proof.
  intros Hp Hr Hq Hc Hj Hne result. subst result.
  destruct (markdown prompt) as [[]|e1] eqn:Hmp;
    [|apply handle_prompt_unshown; left; by exists e1].
  destruct (markdown response) as [[]|e2] eqn:Hmr;
    [|apply handle_prompt_unshown; right; by exists docs, response, e2].
  rewrite (handle_prompt_answered d s prompt docs response) by done.
  unfold Session.record_turn, save_context. rewrite !lookup_singleton_eq. cbn [Py.truthy].
  apply str_eqb_neq in Hp, Hr. rewrite Hp, Hr. cbn [negb orb fst snd].
  rewrite (atomic_save_ok path d _ text Hj). cbn [fst snd Session.memory Session.shown Session.rag].
  repeat split; try done.
  rewrite (backup_frame json_dump_ascii) by done. apply lookup_insert_eq.
Qed.

(** Property X24. When the page has shown question and answer and the save
    of the turn raises, the turn is in the memory and in the display list,
    the store file and the backup file are as they were, and only a
    left-over temporary file is removed. *)
Theorem unsaved_turn_stays_in_the_session_only (d : fs) (s : session) prompt docs
    response now_user now_ai e :
  prompt <> [] -> response <> [] ->
  markdown prompt = Ok tt ->
  query (Session.rag Chroma s) prompt 3 = Ok docs ->
  complete prompt docs (messages (Session.memory Chroma s)) = Ok response ->
  markdown response = Ok tt ->
  json_dump (PList (saved_records
     (Memory.save_context (Session.memory Chroma s) prompt response))) = Raise e ->
  let result := handle_prompt d s prompt now_user now_ai in
  messages (Session.memory Chroma result.2)
  = messages (Session.memory Chroma s) ++ [HumanMessage prompt; AIMessage response]
  /\ Session.shown Chroma result.2
     = Session.shown Chroma s ++ [user_entry prompt; assistant_entry response]
  /\ result.1 = delete (temp_path path) d.
Proof.
  intros Hp Hr Hmp Hq Hc Hmr Hj result. subst result.
  rewrite (handle_prompt_answered d s prompt docs response) by done.
  unfold Session.record_turn, save_context. rewrite !lookup_singleton_eq. cbn [Py.truthy].
  apply str_eqb_neq in Hp, Hr. rewrite Hp, Hr. cbn [negb orb fst snd].
  by rewrite (atomic_save_raises path d _ e Hj).
Qed.

(** ** Starting the session *)

Lemma init_total (d : fs) : exists st, __init__ path d = Ok st.
Proof.
  destruct (init_cases path d) as [H | [(items & _ & H) | (text & _ & H)]];
    rewrite H; by eexists.
Qed.

(** When the set-up of [RAGSystem()] fails, the one [try] ends: the memory
    is not loaded and the display list is not made. *)
Lemma failed_rag_startup_leaves_the_session_unset (d : fs) ss e :
  rag_startup = Raise e ->
  Session.ss_rag Chroma ss = None ->
  initialize_session_state d ss = (d, ss).
Proof.
  intros He Hrag. unfold Session.initialize_session_state, Session.init_rag.
  by rewrite Hrag, He.
Qed.

(** Property X25. Running [initialize_session_state] again on the session and the
    files it left changes neither: the history is imported once. *)
Theorem rerun_changes_nothing (d : fs) ss :
  initialize_session_state (initialize_session_state d ss).1
    (initialize_session_state d ss).2
  = initialize_session_state d ss.
Proof.
  unfold Session.initialize_session_state at 2 3 4.
  destruct (Session.init_rag Chroma rag_startup ss) as [ss1|e] eqn:H1.
  - assert (Hrag1 : exists r, Session.ss_rag Chroma ss1 = Some r).
    { unfold Session.init_rag in H1. destruct (Session.ss_rag Chroma ss) eqn:Hr.
      - injection H1 as <-. by eexists.
      - destruct rag_startup; [|done]. injection H1 as <-. by eexists. }
    destruct Hrag1 as [r Hr1].
    destruct (Session.init_memory Chroma path d ss1) as [[d2 ss2]|e] eqn:H2.
    + assert (Hss2 : Session.ss_rag Chroma ss2 = Some r
                     /\ exists m, Session.ss_memory Chroma ss2 = Some m).
      { unfold Session.init_memory in H2. destruct (Session.ss_memory Chroma ss1) eqn:Hm.
        - injection H2 as <- <-. split; [done|by eexists].
        - destruct (__init__ path d) as [st|]; [|done]. injection H2 as <- <-.
          split; [done|by eexists]. }
      destruct Hss2 as [Hr2 [m Hm2]]. cbn [fst snd].
      set (ss3 := Session.init_messages Chroma path d2 ss2).
      assert (Hss3 : Session.ss_rag Chroma ss3 = Some r
                     /\ Session.ss_memory Chroma ss3 = Some m
                     /\ exists l, Session.ss_messages Chroma ss3 = Some l).
      { subst ss3. unfold Session.init_messages.
        destruct (Session.ss_messages Chroma ss2) eqn:Hl; [by eauto|].
        cbn. rewrite Hr2, Hm2. by eauto. }
      destruct Hss3 as (Hr3 & Hm3 & l & Hl3).
      unfold Session.initialize_session_state, Session.init_rag, Session.init_memory,
        Session.init_messages.
      by rewrite Hr3, Hm3, Hl3.
    + exfalso. unfold Session.init_memory in H2.
      destruct (Session.ss_memory Chroma ss1); [done|].
      destruct (init_total d) as [st Hst]. by rewrite Hst in H2.
  - cbn [fst snd]. unfold Session.initialize_session_state. by rewrite H1.
Qed.
End Turns.

(** ** The first run of a session; the button *)

Section Starts.
Context {rt : Runtime}.
Variable Chroma : Type.
Variable rag_startup : result unit.
Variable path : string.

Local Abbreviation initialize_session_state :=
  (Session.initialize_session_state Chroma rag_startup path).
Local Abbreviation clear_memory_button := (Session.clear_memory_button Chroma path).

(** A session started on an empty history. *)
Lemma start_without_store (d : fs) :
  rag_startup = Ok tt -> d !! path = None ->
  initialize_session_state d (Session.new_session Chroma)
  = (d, {| Session.ss_rag := Some (RAGSystem.__init__ Chroma);
           Session.ss_memory := Some Memory.new;
           Session.ss_messages := Some [] |}).
Proof.
  intros Hrag Hd. unfold Session.initialize_session_state, Session.init_rag,
    Session.init_memory, Session.init_messages, Session.new_session.
  cbn [Session.ss_rag Session.ss_memory Session.ss_messages].
  rewrite Hrag. cbn [mbind result_bind Session.ss_memory].
  rewrite (init_missing path d Hd). cbn [mbind result_bind fst snd Session.ss_messages
    Session.ss_memory Session.ss_rag].
  by rewrite app_binds_no_HumanMessage, import_file_missing.
Qed.

Lemma kept_stable memory :
  forallb stable_message (messages memory) = true -> kept memory = messages memory.
Proof.
  unfold kept. induction (messages memory) as [|m l IH]; [done|].
  cbn [forallb List.filter]. intros [Hm Hl]%andb_prop.
  rewrite (stable_truthy m Hm). by rewrite IH.
Qed.

(** Property X26. A session started on a store file that a save wrote from messages
    with trimmed contents (the assistant's without the text
    ["HumanMessage"]) has an index without documents, these messages as its
    memory and their entries as its display list, and leaves the files
    alone. *)
Theorem restart_shows_and_remembers_what_was_saved (d : fs) saved text :
  rag_startup = Ok tt ->
  forallb stable_message (messages saved) = true ->
  d !! path = Some text ->
  json_load text = Ok (PList (saved_records saved)) ->
  initialize_session_state d (Session.new_session Chroma)
  = (d, {| Session.ss_rag := Some (RAGSystem.__init__ Chroma);
           Session.ss_memory := Some saved;
           Session.ss_messages := Some (List.map entry_of (messages saved)) |}).
Proof.
  intros Hrag Hs Hd Hj. unfold Session.initialize_session_state, Session.init_rag,
    Session.init_memory, Session.init_messages, Session.new_session.
  cbn [Session.ss_rag Session.ss_memory Session.ss_messages].
  rewrite Hrag. cbn [mbind result_bind Session.ss_memory].
  rewrite (init_readable path d text _ Hd Hj (saved_readable saved)).
  cbn [mbind result_bind fst snd Session.ss_messages Session.ss_memory Session.ss_rag].
  rewrite app_binds_no_HumanMessage, (import_file_array d path text _ [] Hd Hj).
  unfold saved_records at 2. fold (kept saved).
  rewrite import_all_saved by apply kept_truthy. cbn [fst app].
  unfold saved_records. rewrite loaded_saved_all_stable by done.
  rewrite kept_stable by done. by destruct saved.
Qed.

(** Property X27. A session started on a store file that is no JSON has an empty
    memory and an empty display list, and the file is moved to [path.bak]. *)
Theorem corrupt_store_starts_an_empty_session (d : fs) text e :
  rag_startup = Ok tt ->
  d !! path = Some text ->
  json_load text = Raise e ->
  initialize_session_state d (Session.new_session Chroma)
  = (<[path +:+ ".bak" := text]> (delete path d),
     {| Session.ss_rag := Some (RAGSystem.__init__ Chroma);
        Session.ss_memory := Some Memory.new;
        Session.ss_messages := Some [] |}).
Proof.
  intros Hrag Hd Hj. unfold Session.initialize_session_state, Session.init_rag,
    Session.init_memory, Session.init_messages, Session.new_session.
  cbn [Session.ss_rag Session.ss_memory Session.ss_messages].
  rewrite Hrag. cbn [mbind result_bind Session.ss_memory].
  rewrite (init_backup path d text e Hd (load_messages_invalid_json path d text e _ Hd Hj)).
  cbn [mbind result_bind fst snd Session.ss_messages Session.ss_memory Session.ss_rag].
  rewrite app_binds_no_HumanMessage, import_file_missing; [done|].
  apply init_moved_aside.
Qed.

(** Property X28. The clear button removes the store file and nothing else (the backup
    file stays), empties the display list and the memory, and the next
    session starts empty. *)
Theorem clear_button_empties_this_and_the_next_session (d : fs) (s : Session.session Chroma) :
  rag_startup = Ok tt ->
  path <> Session.backup_file ->
  (clear_memory_button d s).1 = delete path d
  /\ (clear_memory_button d s).1 !! Session.backup_file = d !! Session.backup_file
  /\ Session.shown Chroma (clear_memory_button d s).2 = []
  /\ messages (Session.memory Chroma (clear_memory_button d s).2) = []
  /\ initialize_session_state (clear_memory_button d s).1 (Session.new_session Chroma)
     = ((clear_memory_button d s).1,
        {| Session.ss_rag := Some (RAGSystem.__init__ Chroma);
           Session.ss_memory := Some Memory.new;
           Session.ss_messages := Some [] |}).
Proof.
  intros Hrag Hne. unfold Session.clear_memory_button. cbn [fst snd Session.shown Session.memory].
  rewrite clear_disk. cbn [fst].
  split; [done|]. split; [by rewrite lookup_delete_ne|]. split; [done|]. split; [done|].
  apply start_without_store; [done|]. apply lookup_delete_eq.
Qed.
End Starts.

(** ** The statements above on example inputs *)

Lemma atomic_save_touches_store_and_temp_only_witness :
  (old_disk, short_talk).2 = short_talk
  /\ (<[store := file_of (PList (saved_records short_talk))]> old_disk : fs)
       !! temp_path store = None.
Proof.
  destruct (atomic_save_touches_store_and_temp_only (rt := Reference.runtime) store
              (<[temp_path store := "left over"]> old_disk) short_talk
              (old_disk, short_talk) (Ok tt)) as (H1 & H2 & _).
  - vm_compute; reflexivity.
  - split; [exact H1|]. vm_compute; reflexivity.
Defined.

Lemma save_context_failure_keeps_store_witness :
  (old_disk, Memory.save_context short_talk (py "otra") broken_text).1 !! store
  = old_disk !! store.
Proof.
  apply (save_context_failure_keeps_store (rt := Reference.runtime) store old_disk short_talk
           (turn_input (py "otra")) (turn_output broken_text)
           (old_disk, Memory.save_context short_talk (py "otra") broken_text) UnicodeError).
  vm_compute; reflexivity.
Defined.

Lemma second_load_gives_the_same_witness :
  __init__ (rt := Reference.runtime) store
    (<[store +:+ ".bak" := "{oops"]> (delete store corrupt_disk), Memory.new).1
  = Ok (<[store +:+ ".bak" := "{oops"]> (delete store corrupt_disk), Memory.new).
Proof.
  apply (second_load_gives_the_same (rt := Reference.runtime) store corrupt_disk).
  vm_compute; reflexivity.
Defined.

Lemma load_reads_the_store_only_witness :
  exists d2', __init__ (rt := Reference.runtime) store
                (<[temp_path store := "[tr"]> old_disk) = Ok (d2', (old_disk, short_talk).2).
Proof.
  apply (load_reads_the_store_only (rt := Reference.runtime) store old_disk
           (<[temp_path store := "[tr"]> old_disk) (old_disk, short_talk));
    vm_compute; reflexivity.
Defined.

Lemma load_moves_or_leaves_witness :
  (messages (old_disk, short_talk).2 <> [] -> (old_disk, short_talk).1 = old_disk)
  /\ (forall p, p <> store -> p <> store +:+ ".bak" ->
        (old_disk, short_talk).1 !! p = old_disk !! p).
Proof.
  destruct (load_moves_or_leaves (rt := Reference.runtime) store old_disk
              (old_disk, short_talk)) as (_ & H2 & H3).
  - vm_compute; reflexivity.
  - by split.
Defined.

Lemma malformed_array_is_moved_aside_witness :
  __init__ (rt := Reference.runtime) store {[ store := file_of (PList null_entries) ]}
  = Ok (<[store +:+ ".bak" := file_of (PList null_entries)]>
          (delete store {[ store := file_of (PList null_entries) ]}), Memory.new).
Proof.
  apply (malformed_array_is_moved_aside (rt := Reference.runtime) store
           {[ store := file_of (PList null_entries) ]} (file_of (PList null_entries))
           (PList null_entries)); vm_compute; reflexivity.
Defined.

Lemma interrupted_store_cases_witness :
  interrupted_save store "[]" old_disk (AfterStep 3) !! store = None
  /\ (interrupted_save store "[]" old_disk (WhileWriting 1) !! store = old_disk !! store
      \/ interrupted_save store "[]" old_disk (WhileWriting 1) !! store = Some "[]").
Proof.
  split.
  - apply (interrupted_store_cases store old_disk "[]" (AfterStep 3)). reflexivity.
  - apply (interrupted_store_cases store old_disk "[]" (WhileWriting 1)). discriminate.
Defined.

Lemma early_interruption_loses_nothing_witness :
  exists d', __init__ (rt := Reference.runtime) store
               (interrupted_save store "[]" old_disk (WhileWriting 1))
             = Ok (d', (old_disk, short_talk).2).
Proof.
  apply (early_interruption_loses_nothing (rt := Reference.runtime) store old_disk "[]"
           (WhileWriting 1) (old_disk, short_talk)).
  - exact I.
  - vm_compute; reflexivity.
Defined.

Lemma validator_agrees_with_loader_on_flat_records_witness :
  _validate_messages mixed_flat_entries
  = for_each (validate_item (rt := Reference.runtime)) mixed_flat_entries [].
Proof.
  apply (validator_agrees_with_loader_on_flat_records (rt := Reference.runtime));
    vm_compute; reflexivity.
Defined.

Lemma validator_yields_no_blank_message_witness :
  Forall (fun m => blank (content m) = false) [HumanMessage (py "hi"); AIMessage (py "yes")].
Proof.
  apply (validator_yields_no_blank_message mixed_flat_entries).
  vm_compute; reflexivity.
Defined.

Lemma saved_history_is_shown_as_written_witness :
  App.load_chat_history (rt := Reference.runtime)
    {[ store := file_of (PList (saved_records padded_talk)) ]} store
    {| messages := [HumanMessage (py "hi")] |}
  = List.map entry_of (kept padded_talk).
Proof.
  apply (saved_history_is_shown_as_written (rt := Reference.runtime) _ store padded_talk
           (file_of (PList (saved_records padded_talk)))); vm_compute; reflexivity.
Defined.

Lemma backup_appends_the_turn_witness :
  Session.backup_message_to_json (rt := Reference.runtime) Reference.json_dump_ascii
    old_disk (py "Q") (py "A") stamp_q stamp_a !! Session.backup_file
  = Some (ascii_file_of (PList ([] ++ backup_turn (py "Q") (py "A") stamp_q stamp_a))).
Proof.
  apply (backup_appends_the_turn (rt := Reference.runtime) Reference.json_dump_ascii
           old_disk [] (py "Q") (py "A") stamp_q stamp_a).
  left. split; [vm_compute; reflexivity|reflexivity].
Defined.

Lemma two_backups_keep_the_order_witness :
  Session.backup_message_to_json (rt := Reference.runtime) Reference.json_dump_ascii
    (Session.backup_message_to_json (rt := Reference.runtime) Reference.json_dump_ascii
       ∅ (py "Q") (py "A") stamp_q stamp_a)
    (py "otra") (py "bien") stamp_q stamp_a !! Session.backup_file
  = Some (ascii_file_of (PList (backup_turn (py "Q") (py "A") stamp_q stamp_a
                                ++ backup_turn (py "otra") (py "bien") stamp_q stamp_a))).
Proof.
  apply (two_backups_keep_the_order (rt := Reference.runtime) Reference.json_dump_ascii ∅);
    vm_compute; reflexivity.
Defined.

Lemma unreadable_backup_is_left_alone_witness :
  Session.backup_message_to_json (rt := Reference.runtime) Reference.json_dump_ascii
    {[ Session.backup_file := "{}" ]} (py "Q") (py "A") stamp_q stamp_a
  = {[ Session.backup_file := "{}" ]}.
Proof.
  apply (unreadable_backup_is_left_alone (rt := Reference.runtime) Reference.json_dump_ascii
           _ "{}").
  - vm_compute; reflexivity.
  - vm_compute. exact I.
Defined.

Lemma backup_file_restores_the_conversation_witness :
  __init__ (rt := Reference.runtime) store
    {[ store := ascii_file_of (PList (backup_array backup_turns)) ]}
  = Ok ({[ store := ascii_file_of (PList (backup_array backup_turns)) ]},
        {| messages := flat_map restored backup_turns |}).
Proof.
  apply (backup_file_restores_the_conversation (rt := Reference.runtime) store _
           (ascii_file_of (PList (backup_array backup_turns)))); vm_compute; reflexivity.
Defined.

Lemma failed_turn_changes_nothing_witness :
  toy_handle old_disk unindexed_session (py "de que trata?") stamp_q stamp_a
  = (old_disk, unindexed_session)
  /\ toy_handle old_disk indexed_session (py "falla") stamp_q stamp_a = (old_disk, indexed_session)
  /\ toy_handle old_disk indexed_session broken_text stamp_q stamp_a = (old_disk, indexed_session)
  /\ toy_handle old_disk indexed_session (py "rompe") stamp_q stamp_a = (old_disk, indexed_session).
Proof.
  split; [|split; [|split]].
  - apply (failed_turn_changes_nothing (rt := Reference.runtime)). left.
    exists RAGSystem.not_indexed. reflexivity.
  - apply (failed_turn_changes_nothing (rt := Reference.runtime)). right. left.
    exists [py "uno"; py "dos"], (LibraryError "connection refused").
    split; vm_compute; reflexivity.
  - apply (failed_turn_changes_nothing (rt := Reference.runtime)). right. right. left.
    exists UnicodeError. reflexivity.
  - apply (failed_turn_changes_nothing (rt := Reference.runtime)). right. right. right.
    exists [py "uno"; py "dos"], broken_text, UnicodeError.
    split; [|split]; vm_compute; reflexivity.
Defined.

Lemma empty_answer_is_shown_but_not_saved_witness :
  toy_handle old_disk indexed_session (py "calla") stamp_q stamp_a
  = (old_disk,
     {| Session.rag := Session.rag (list pystr) indexed_session;
        Session.memory := Session.memory (list pystr) indexed_session;
        Session.shown := Session.shown (list pystr) indexed_session
                         ++ [user_entry (py "calla"); assistant_entry []] |}).
Proof.
  apply (empty_answer_is_shown_but_not_saved (rt := Reference.runtime) (list pystr) pystr
           toy_bool toy_search Reference.json_dump_ascii toy_complete toy_markdown store old_disk
           indexed_session (py "calla") [py "uno"; py "dos"]).
  - vm_compute. discriminate.
  - vm_compute; reflexivity.
  - vm_compute; reflexivity.
Defined.

Lemma completed_turn_is_recorded_witness :
  messages (Session.memory (list pystr)
              (toy_handle ∅ indexed_session (py "de que trata?") stamp_q stamp_a).2)
  = messages (Session.memory (list pystr) indexed_session)
    ++ [HumanMessage (py "de que trata?"); AIMessage (py "segun el documento: unodos")]
  /\ Session.shown (list pystr)
       (toy_handle ∅ indexed_session (py "de que trata?") stamp_q stamp_a).2
     = Session.shown (list pystr) indexed_session
       ++ [user_entry (py "de que trata?"); assistant_entry (py "segun el documento: unodos")]
  /\ (toy_handle ∅ indexed_session (py "de que trata?") stamp_q stamp_a).1 !! store
     = Some (file_of (PList (saved_records
               {| messages := [HumanMessage (py "de que trata?");
                               AIMessage (py "segun el documento: unodos")] |}))).
Proof.
  destruct (completed_turn_is_recorded (rt := Reference.runtime) (list pystr) pystr
              toy_bool toy_search Reference.json_dump_ascii toy_complete toy_markdown store ∅
              indexed_session (py "de que trata?") [py "uno"; py "dos"]
              (py "segun el documento: unodos") stamp_q stamp_a
              (file_of (PList (saved_records
                 {| messages := [HumanMessage (py "de que trata?");
                                 AIMessage (py "segun el documento: unodos")] |}))))
    as (Hm & Hs & _ & Hd & _); try (vm_compute; reflexivity); try (vm_compute; discriminate).
  by split.
Defined.

Lemma unsaved_turn_stays_in_the_session_only_witness :
  (toy_handle_full_disk old_disk indexed_session (py "de que trata?") stamp_q stamp_a).1
  = delete (temp_path store) old_disk
  /\ messages (Session.memory (list pystr)
                 (toy_handle_full_disk old_disk indexed_session (py "de que trata?")
                    stamp_q stamp_a).2)
     = messages (Session.memory (list pystr) indexed_session)
       ++ [HumanMessage (py "de que trata?"); AIMessage (py "segun el documento: unodos")]
  /\ Session.shown (list pystr)
       (toy_handle_full_disk old_disk indexed_session (py "de que trata?") stamp_q stamp_a).2
     = Session.shown (list pystr) indexed_session
       ++ [user_entry (py "de que trata?"); assistant_entry (py "segun el documento: unodos")].
Proof.
  destruct (unsaved_turn_stays_in_the_session_only (rt := full_disk) (list pystr) pystr
              toy_bool toy_search Reference.json_dump_ascii toy_complete toy_markdown store
              old_disk indexed_session (py "de que trata?") [py "uno"; py "dos"]
              (py "segun el documento: unodos") stamp_q stamp_a
              (OSError "No space left on device"))
    as (Hm & Hs & Hd); try (vm_compute; reflexivity); try (vm_compute; discriminate).
  by split.
Defined.

Lemma restart_shows_and_remembers_what_was_saved_witness :
  Session.initialize_session_state (rt := Reference.runtime) (list pystr) (Ok tt) store
    old_disk (Session.new_session (list pystr))
  = (old_disk,
     {| Session.ss_rag := Some (RAGSystem.__init__ (list pystr));
        Session.ss_memory := Some short_talk;
        Session.ss_messages := Some (List.map entry_of (messages short_talk)) |}).
Proof.
  apply (restart_shows_and_remembers_what_was_saved (rt := Reference.runtime) (list pystr)
           (Ok tt) store old_disk short_talk (file_of (PList (saved_records short_talk))));
    vm_compute; reflexivity.
Defined.

Lemma corrupt_store_starts_an_empty_session_witness :
  Session.initialize_session_state (rt := Reference.runtime) (list pystr) (Ok tt) store
    corrupt_disk (Session.new_session (list pystr))
  = (<[store +:+ ".bak" := "{oops"]> (delete store corrupt_disk),
     {| Session.ss_rag := Some (RAGSystem.__init__ (list pystr));
        Session.ss_memory := Some Memory.new;
        Session.ss_messages := Some [] |}).
Proof.
  apply (corrupt_store_starts_an_empty_session (rt := Reference.runtime) (list pystr)
           (Ok tt) store corrupt_disk "{oops" JSONDecodeError); vm_compute; reflexivity.
Defined.

Lemma clear_button_empties_this_and_the_next_session_witness :
  (Session.clear_memory_button (list pystr) store old_disk
     indexed_session).1 = delete store old_disk
  /\ Session.shown (list pystr)
       (Session.clear_memory_button (list pystr) store old_disk
          indexed_session).2 = [].
Proof.
  destruct (clear_button_empties_this_and_the_next_session (rt := Reference.runtime)
              (list pystr) (Ok tt) store old_disk indexed_session)
    as (Hd & _ & Hs & _); try reflexivity.
  - vm_compute. discriminate.
  - by split.
Defined.
